(** * Agility CMS PostHog app: traffic allocation and experiment results

    A shallow embedding of the arithmetic of the experiment wizard
    ([createExperiment] in [components/CreateExperiment.tsx]), of the results
    route ([GET] and [transformResults]) and of the results panel
    ([ExperimentResults.tsx]), with the properties the specification states
    about them.

    Conventions.  A field that may be [undefined] or [null] is an [option]
    where the code treats the two alike ([??], [||], [!= null]); the panel's
    [success_count], which it compares with [undefined] alone, keeps them
    apart; counts and percentages are integers ([Z]);
    win probabilities are rationals ([Q]), every finite double being one;
    the panel's quotients are computed in [Q], so the rounding of doubles is
    outside the model.  A JavaScript object used as a map is the list of its
    entries in the order [Object.entries] yields them. *)

From Stdlib Require Import ZArith QArith List String Ascii DecimalString Bool Lia.
Import ListNotations.

Local Open Scope string_scope.
Local Open Scope list_scope.
Local Open Scope Z_scope.

(** ** The JavaScript operators the code relies on *)

Module Js.

(** [a || d] on numbers: [0] is falsy. *)
Definition or_z (a d : Z) : Z :=
  if a =? 0 then d else a.

(** [a || d] where [a] is a number or [undefined]. *)
Definition or_num (a : option Z) (d : Z) : Z :=
  match a with
  | Some z => or_z z d
  | None => d
  end.

(** [a ?? b]: the left operand unless it is [null] or [undefined]. *)
Definition nullish {A : Type} (a b : option A) : option A :=
  match a with
  | Some x => Some x
  | None => b
  end.

(** [a ?? d] where [d] is a value. *)
Definition nullish_or {A : Type} (a : option A) (d : A) : A :=
  match a with
  | Some x => x
  | None => d
  end.

(** A number inside a template literal. *)
Definition string_of_Z (z : Z) : string :=
  NilZero.string_of_int (Z.to_int z).

(** Truthiness of a string or [undefined]: the empty string is falsy. *)
Definition truthy_str (s : option string) : bool :=
  match s with
  | Some EmptyString => false
  | Some _ => true
  | None => false
  end.

(** [a || b] on strings. *)
Definition or_str (a b : option string) : option string :=
  if truthy_str a then a else b.

(** [xs.map((x, index) => f x index)], the index counted from [index]. *)
Fixpoint map_index_from {A B : Type} (f : A -> Z -> B) (index : Z) (xs : list A)
  : list B :=
  match xs with
  | [] => []
  | x :: rest => f x index :: map_index_from f (index + 1) rest
  end.

Definition map_index {A B : Type} (f : A -> Z -> B) (xs : list A) : list B :=
  map_index_from f 0 xs.

End Js.

(** ** The experiment wizard: [createExperiment] *)

Module CreateExperiment.

Record FeatureFlagVariant := {
  key : string;
  rollout_percentage : Z
}.

(** Lines 228-234: the split of [effectiveRollout] over [allVariants].
    [Math.floor] of the quotient of two integers is [Z.div] when the divisor
    is positive.  For an empty list JavaScript computes [Infinity] and
    [NaN] where [Z.div] gives [0]; [map] then calls its function on no
    element, so neither value reaches the result. *)
Definition featureFlagVariants (allVariants : list string) (effectiveRollout : Z)
  : list FeatureFlagVariant :=
  let totalVariants := Z.of_nat (List.length allVariants) in
  let basePercentage := effectiveRollout / totalVariants in
  let remainder := effectiveRollout - basePercentage * totalVariants in
  Js.map_index
    (fun variant index =>
       {| key := variant;
          rollout_percentage :=
            basePercentage + (if index <? remainder then 1 else 0) |})
    allVariants.

(** Lines 225-234: ["control"] is prepended to the CMS variants and the
    requested rollout falls back to [100] when it is [0] or unset. *)
Definition allocation (variants : list string) (rollout : option Z)
  : list FeatureFlagVariant :=
  let allVariants := "control" :: variants in
  let effectiveRollout := Js.or_num rollout 100 in
  featureFlagVariants allVariants effectiveRollout.

(** The sum of the assigned percentages. *)
Definition sum_rollout (l : list FeatureFlagVariant) : Z :=
  fold_right (fun v acc => rollout_percentage v + acc) 0 l.

(** *** The content item and the loop over the variant items (lines 171-222) *)


(** The two fields of a variant item when each is a string or missing,
    as a text field of the CMS is.  The loop itself does not test the type
    of what it reads: [Submission.pushed] is the loop on any value. *)
Record VariantFields := {
  Variant : option string;          (* variantItem["Variant"] *)
  variant : option string           (* variantItem["variant"] *)
}.

(** An element of [contentList.items]: its own fields and, when it is
    array-like, its elements ([variantItem.length], [variantItem[0]]). *)
Record VariantItem := {
  own : VariantFields;
  elements : list VariantFields
}.

(** The body of [contentList.items?.forEach]: the string pushed, if any. *)
Definition variant_of (variantItem : VariantItem) : option string :=
  let v := Js.or_str (Variant (own variantItem)) (variant (own variantItem)) in
  let v :=
    if negb (Js.truthy_str v) then
      match elements variantItem with
      | first :: _ => Js.or_str (Variant first) (variant first)
      | [] => v
      end
    else v in
  if Js.truthy_str v then v else None.

Fixpoint collect_variants (items : list VariantItem) : list string :=
  match items with
  | [] => []
  | variantItem :: rest =>
      match variant_of variantItem with
      | Some v => v :: collect_variants rest
      | None => collect_variants rest
      end
  end.

End CreateExperiment.

(** The first version of the wizard (the second component of
    [ExperimentResults.tsx], lines 353-362) always splits [100]. *)

Module CreateExperimentV1.

Import CreateExperiment.

Definition featureFlagVariants (variants : list string) : list FeatureFlagVariant :=
  let allVariants := "control" :: variants in
  let totalVariants := Z.of_nat (List.length allVariants) in
  let basePercentage := 100 / totalVariants in
  let remainder := 100 - basePercentage * totalVariants in
  Js.map_index
    (fun variant index =>
       {| key := variant;
          rollout_percentage :=
            basePercentage + (if index <? remainder then 1 else 0) |})
    allVariants.

End CreateExperimentV1.

(** ** Ordinary objects used as maps

    [Record<string, V>]: the entries in the order of [Object.entries], which
    lists the keys that are array indices first, in ascending numeric order,
    and then the other keys in the order of their creation. *)

Module JsObject.

Definition t (V : Type) : Type := list (string * V).

Definition digit (c : ascii) : option N :=
  let n := N_of_ascii c in
  if ((48 <=? n) && (n <=? 57))%N then Some (n - 48)%N else None.

Fixpoint digits (s : string) (acc : N) : option N :=
  match s with
  | EmptyString => Some acc
  | String c rest =>
      match digit c with
      | Some d => digits rest (acc * 10 + d)%N
      | None => None
      end
  end.

(** The array index a key stands for: a canonical decimal numeral below
    [2^32 - 1]. *)
Definition array_index (k : string) : option N :=
  match k with
  | EmptyString => None
  | String c rest =>
      if (Ascii.eqb c "0" && negb (String.eqb rest EmptyString))%bool then None
      else
        match digits k 0 with
        | Some n => if (n <? 4294967295)%N then Some n else None
        | None => None
        end
  end.

Section Entries.

Context {V : Type}.

(** [o[k]] *)
Fixpoint get (k : string) (o : t V) : option V :=
  match o with
  | [] => None
  | (k', v) :: rest => if String.eqb k' k then Some v else get k rest
  end.

Definition has (k : string) (o : t V) : bool :=
  match get k o with
  | Some _ => true
  | None => false
  end.

(** Assignment to a key the object has: the entry keeps its place. *)
Fixpoint update (k : string) (v : V) (o : t V) : t V :=
  match o with
  | [] => []
  | (k', v') :: rest =>
      if String.eqb k' k then (k', v) :: rest else (k', v') :: update k v rest
  end.

(** A new array-index key goes among the index keys, in numeric order. *)
Fixpoint insert_index (i : N) (k : string) (v : V) (o : t V) : t V :=
  match o with
  | [] => [(k, v)]
  | (k', v') :: rest =>
      match array_index k' with
      | Some j =>
          if (i <? j)%N then (k, v) :: o else (k', v') :: insert_index i k v rest
      | None => (k, v) :: o
      end
  end.

(** [o[k] = v] *)
Definition set (k : string) (v : V) (o : t V) : t V :=
  if has k o then update k v o
  else
    match array_index k with
    | Some i => insert_index i k v o
    | None => o ++ [(k, v)]
    end.

(** [Object.entries(o)] *)
Definition entries (o : t V) : list (string * V) := o.

Definition keys (o : t V) : list string := map fst o.

End Entries.

End JsObject.

(** ** The results route: [GET] and [transformResults] *)

Module ExperimentMetric.
Record t := {
  kind : string;
  name : string;
  uuid : string;
  series : list (string * string);   (* kind, event *)
  metric_type : string
}.
End ExperimentMetric.

Module Experiment.
Record t := {
  id : Z;
  metrics : option (list ExperimentMetric.t)
}.
End Experiment.

(** Variant data of an [ExperimentQuery] answer. *)
Module VariantData.
Record t := {
  key : string;
  number_of_samples : option Z;
  step_counts : option (list Z);
  success_count : option Z;
  failure_count : option Z;
  chance_to_win : option Q;
  sum : option Z;
  sum_squares : option Z
}.
End VariantData.

(** The [result] of a metric; [baseline] and [variant_results] are tested
    before use, so they may be missing. *)
Module QueryResult.
Record t := {
  baseline : option VariantData.t;
  variant_results : option (list VariantData.t);
  probability : option (JsObject.t Q);
  significant : option bool;
  credible_intervals : option (JsObject.t (Q * Q))
}.
End QueryResult.

Module MetricResult.
Record t := {
  metric : ExperimentMetric.t;
  result : QueryResult.t
}.
End MetricResult.

(** An element of [allVariants]. *)
Module AllVariant.
Record t := {
  key : string;
  count : Z;
  absolute_exposure : Z;
  success_count : option Z;
  failure_count : option Z
}.
End AllVariant.

(** A variant of an element of [primary_metric_results]. *)
Module MetricVariant.
Record t := {
  key : string;
  count : Z;
  exposure : Z;
  absolute_exposure : Z;
  success_count : option Z;
  failure_count : option Z
}.
End MetricVariant.

Module PrimaryMetric.
Record t := {
  action_name : string;
  action_id : string;
  variants : list MetricVariant.t
}.
End PrimaryMetric.

Module Transformed.
Record t := {
  variants : list AllVariant.t;
  probability : JsObject.t Q;
  significant : bool;
  credible_intervals : JsObject.t (Q * Q);
  primary_metric_results : list PrimaryMetric.t
}.
End Transformed.

Module Route.

(** [v.step_counts?.[0]] *)
Definition step_counts_0 (v : VariantData.t) : option Z :=
  match VariantData.step_counts v with
  | Some (c :: _) => Some c
  | _ => None
  end.

(** Lines 192-202 and 209-219: the element pushed for the baseline and for
    each variant of [variant_results] (the two blocks are the same). *)
Definition allVariants_entry (v : VariantData.t) : AllVariant.t :=
  let variantCount :=
    Js.nullish_or
      (Js.nullish (Js.nullish (step_counts_0 v) (VariantData.sum v))
         (VariantData.success_count v))
      0 in
  {| AllVariant.key := VariantData.key v;
     AllVariant.count := Js.or_num (VariantData.number_of_samples v) 0;
     AllVariant.absolute_exposure := Js.or_num (VariantData.number_of_samples v) 0;
     AllVariant.success_count := Some variantCount;
     AllVariant.failure_count := VariantData.failure_count v |}.

(** Lines 242-250 and 252-260: a variant of a metric's entry. *)
Definition metric_entry (v : VariantData.t) : MetricVariant.t :=
  {| MetricVariant.key := VariantData.key v;
     MetricVariant.count :=
       Js.nullish_or (Js.nullish (step_counts_0 v) (VariantData.sum v)) 0;
     MetricVariant.exposure := Js.or_num (VariantData.number_of_samples v) 0;
     MetricVariant.absolute_exposure := Js.or_num (VariantData.number_of_samples v) 0;
     MetricVariant.success_count :=
       Js.nullish (Js.nullish (step_counts_0 v) (VariantData.sum v))
         (VariantData.success_count v);
     MetricVariant.failure_count := VariantData.failure_count v |}.

(** The samples of a result in the order the loops visit them: the baseline,
    then [variant_results]. *)
Definition samples (r : QueryResult.t) : list VariantData.t :=
  (match QueryResult.baseline r with
   | Some baseline => [baseline]
   | None => []
   end)
  ++
  (match QueryResult.variant_results r with
   | Some variant_results => variant_results
   | None => []
   end).

(** Lines 186-222: [allVariants]. *)
Definition allVariants (primaryResult : option QueryResult.t) : list AllVariant.t :=
  match primaryResult with
  | Some primaryResult =>
      (match QueryResult.baseline primaryResult with
       | Some baseline => [allVariants_entry baseline]
       | None => []
       end)
      ++
      (match QueryResult.variant_results primaryResult with
       | Some variant_results => map allVariants_entry variant_results
       | None => []
       end)
  | None => []
  end.

(** The body of the loop of lines 230-234, also the test of line 226. *)
Definition record_chance (probability : JsObject.t Q) (v : VariantData.t)
  : JsObject.t Q :=
  match VariantData.chance_to_win v with
  | Some chance => JsObject.set (VariantData.key v) chance probability
  | None => probability
  end.

(** Lines 225-235: [probability]. *)
Definition probability (primaryResult : option QueryResult.t) : JsObject.t Q :=
  let probability : JsObject.t Q := [] in
  let probability :=
    match primaryResult with
    | Some r =>
        match QueryResult.baseline r with
        | Some baseline => record_chance probability baseline
        | None => probability
        end
    | None => probability
    end in
  match primaryResult with
  | Some r =>
      match QueryResult.variant_results r with
      | Some variant_results => fold_left record_chance variant_results probability
      | None => probability
      end
  | None => probability
  end.

(** The chance the last sample of key [k] with a chance has, if any: what
    the assignments of [record_chance] leave under [k]. *)
Fixpoint last_chance (k : string) (vs : list VariantData.t) : option Q :=
  match vs with
  | [] => None
  | v :: rest =>
      match last_chance k rest with
      | Some chance => Some chance
      | None =>
          if String.eqb (VariantData.key v) k then VariantData.chance_to_win v else None
      end
  end.

(** The samples that have a chance, as entries, in the order of the samples. *)
Fixpoint chances (vs : list VariantData.t) : list (string * Q) :=
  match vs with
  | [] => []
  | v :: rest =>
      match VariantData.chance_to_win v with
      | Some chance => (VariantData.key v, chance) :: chances rest
      | None => chances rest
      end
  end.

(** Lines 238-262: [primary_metric_results]. *)
Definition primary_metric (m : MetricResult.t) : PrimaryMetric.t :=
  let metric := MetricResult.metric m in
  let result := MetricResult.result m in
  {| PrimaryMetric.action_name := ExperimentMetric.name metric;
     PrimaryMetric.action_id := ExperimentMetric.uuid metric;
     PrimaryMetric.variants :=
       (match QueryResult.baseline result with
        | Some baseline => [metric_entry baseline]
        | None => []
        end)
       ++
       map metric_entry
         (match QueryResult.variant_results result with
          | Some variant_results => variant_results
          | None => []
          end) |}.

Definition transformResults (metricResults : list MetricResult.t) : Transformed.t :=
  let primaryResult :=
    match metricResults with
    | first :: _ => Some (MetricResult.result first)
    | [] => None
    end in
  {| Transformed.variants := allVariants primaryResult;
     Transformed.probability := probability primaryResult;
     Transformed.significant :=
       Js.nullish_or
         (match primaryResult with
          | Some r => QueryResult.significant r
          | None => None
          end)
         false;
     (* [x || {}] on an object or [undefined]: every object is truthy *)
     Transformed.credible_intervals :=
       Js.nullish_or
         (match primaryResult with
          | Some r => QueryResult.credible_intervals r
          | None => None
          end)
         [];
     Transformed.primary_metric_results := map primary_metric metricResults |}.

(** What a [fetch] gave: a rejected promise, an answer whose [ok] is false,
    or the parsed body of an answer whose [ok] is true. *)
Inductive Fetched (A : Type) :=
| Rejected
| NotOk (status : Z)
| Ok (body : A).

Arguments Rejected {A}.
Arguments NotOk {A} status.
Arguments Ok {A} body.

(** The JSON the handler answers with. *)
Inductive Reply :=
| Error (error : string) (status : Z)
| NoResults (reason : string)              (* { noResults: true, reason } *)
| Results (transformedResults : Transformed.t).

(** The callback of [experiment.metrics.map]: [None] is a rejected promise,
    [Some None] the [null] of a query whose answer is not [ok]. *)
Definition query_metric (queryResponse : ExperimentMetric.t -> Fetched QueryResult.t)
    (metric : ExperimentMetric.t) : option (option MetricResult.t) :=
  match queryResponse metric with
  | Rejected => None
  | NotOk _ => Some None
  | Ok result =>
      Some (Some {| MetricResult.metric := metric; MetricResult.result := result |})
  end.

(** [Promise.all]: rejected as soon as one of the promises is. *)
Fixpoint promise_all {A : Type} (l : list (option A)) : option (list A) :=
  match l with
  | [] => Some []
  | None :: _ => None
  | Some x :: rest =>
      match promise_all rest with
      | Some xs => Some (x :: xs)
      | None => None
      end
  end.

(** [metricResults.filter(r => r !== null)] *)
Fixpoint filter_non_null {A : Type} (l : list (option A)) : list A :=
  match l with
  | [] => []
  | Some x :: rest => x :: filter_non_null rest
  | None :: rest => filter_non_null rest
  end.

Definition GET (apiKey projectId : option string)
    (experimentResponse : Fetched Experiment.t)
    (queryResponse : ExperimentMetric.t -> Fetched QueryResult.t) : Reply :=
  if (negb (Js.truthy_str apiKey) || negb (Js.truthy_str projectId))%bool then
    Error "Missing required headers: x-posthog-api-key and x-posthog-project-id" 400
  else
    match experimentResponse with
    | Rejected => Error "Failed to fetch experiment results" 500
    | NotOk status =>
        Error (String.append "Failed to fetch experiment: " (Js.string_of_Z status)) status
    | Ok experiment =>
        match Experiment.metrics experiment with
        | None | Some [] => NoResults "No metrics configured"
        | Some metrics =>
            match promise_all (map (query_metric queryResponse) metrics) with
            | None => Error "Failed to fetch experiment results" 500
            | Some metricResults =>
                match filter_non_null metricResults with
                | [] => NoResults "No valid metric results"
                | validResults => Results (transformResults validResults)
                end
            end
        end
    end.

End Route.

(** ** The results panel: [ExperimentResults] *)

Module VariantResult.
Record t := {
  key : string;
  count : Z;
  absolute_exposure : Z;
  failure_count : option Z;
  success_count : option Z
}.
End VariantResult.

(** A number of a JSON answer that the code compares with [undefined]:
    the key may be absent, or hold [null], or hold a number. *)
Module JsonNumber.
Inductive t :=
| Absent
| Null
| Number (z : Z).
End JsonNumber.

(** An element of [MetricResult.variants]; every field but the key is
    optional. *)
Module DisplayedVariant.
Record t := {
  key : string;
  count : option Z;
  exposure : option Z;
  absolute_exposure : option Z;
  failure_count : option Z;
  success_count : JsonNumber.t
}.
End DisplayedVariant.

Module WinningVariant.
Record t := {
  key : string;
  prob : Q
}.
End WinningVariant.

Module ExperimentResults.

(** [v.absolute_exposure || v.count || 0] (lines 105 and 160). *)
Definition exposures (v : VariantResult.t) : Z :=
  Js.or_z (Js.or_z (VariantResult.absolute_exposure v) (VariantResult.count v)) 0.

(** Line 105. *)
Definition totalExposures (variants : list VariantResult.t) : Z :=
  fold_left (fun sum v => sum + exposures v) variants 0.

(** [prob > best.prob] *)
Definition gt (prob best : Q) : bool := negb (Qle_bool prob best).

(** The callback of the [reduce] of lines 108-111. *)
Definition better (best : WinningVariant.t) (entry : string * Q) : WinningVariant.t :=
  let '(key, prob) := entry in
  if gt prob (WinningVariant.prob best)
  then {| WinningVariant.key := key; WinningVariant.prob := prob |}
  else best.

(** Lines 108-111. *)
Definition winningVariant (probability : JsObject.t Q) : WinningVariant.t :=
  fold_left better (JsObject.entries probability)
    {| WinningVariant.key := ""; WinningVariant.prob := 0 |}.

(** Line 161, for the variant [variant] of a panel whose total is
    [totalExposures]. *)
Definition exposurePercent (totalExposures : Z) (variant : VariantResult.t) : Q :=
  if 0 <? totalExposures
  then (inject_Z (exposures variant) / inject_Z totalExposures) * 100
  else 0.


End ExperimentResults.

(** ** The experiment configuration ([types/ExperimentConfig]) *)

Module ExperimentConfig.

Inductive MetricType := mean | funnel | ratio.

Inductive Math := total | dau | weekly_active | monthly_active.

(** [metric_type === 'funnel'] *)
Definition is_funnel (t : MetricType) : bool :=
  match t with
  | funnel => true
  | _ => false
  end.

Module ExperimentMetric.
Record t := {
  id : string;
  name : string;
  metric_type : MetricType;
  event_name : string;
  description : option string;
  funnel_steps : option (list string);
  math : option Math
}.
End ExperimentMetric.

Module ExperimentTemplate.
Record t := {
  id : string;
  name : string;
  description : string;
  icon : string;
  metrics : list ExperimentMetric.t;
  recommended_duration_days : Z;
  minimum_detectable_effect : Z
}.
End ExperimentTemplate.

Module TargetingCriteria.
Record t := {
  filter_test_accounts : bool;
  rollout_percentage : option Z
}.
End TargetingCriteria.

Module PostHogEventsNode.
Record t := {
  kind : string;
  event : string;
  name : string;
  math : option Math
}.
End PostHogEventsNode.

Module PostHogMetric.
Record t := {
  kind : string;
  metric_type : MetricType;
  name : string;
  source : option PostHogEventsNode.t;
  series : option (list PostHogEventsNode.t)
}.
End PostHogMetric.

(** Lines 82-154. *)
Definition EXPERIMENT_TEMPLATES : list ExperimentTemplate.t :=
  [ {| ExperimentTemplate.id := "cta_optimization";
       ExperimentTemplate.name := "CTA Optimization";
       ExperimentTemplate.description :=
         "Test button text, color, or placement to improve click-through rates";
       ExperimentTemplate.icon := "cta";
       ExperimentTemplate.metrics :=
         [ {| ExperimentMetric.id := "cta_clicks";
              ExperimentMetric.name := "CTA Clicks";
              ExperimentMetric.metric_type := mean;
              ExperimentMetric.event_name := "cta_clicked";
              ExperimentMetric.description := Some "Total clicks on the call-to-action";
              ExperimentMetric.funnel_steps := None;
              ExperimentMetric.math := Some total |} ];
       ExperimentTemplate.recommended_duration_days := 14;
       ExperimentTemplate.minimum_detectable_effect := 20 |};
    {| ExperimentTemplate.id := "content_engagement";
       ExperimentTemplate.name := "Content Engagement";
       ExperimentTemplate.description :=
         "Test headlines, descriptions, or layouts to improve engagement";
       ExperimentTemplate.icon := "engagement";
       ExperimentTemplate.metrics :=
         [ {| ExperimentMetric.id := "scroll_depth";
              ExperimentMetric.name := "Scroll Depth";
              ExperimentMetric.metric_type := mean;
              ExperimentMetric.event_name := "scroll_milestone";
              ExperimentMetric.description := Some "How far users scroll on the page";
              ExperimentMetric.funnel_steps := None;
              ExperimentMetric.math := Some total |};
           {| ExperimentMetric.id := "time_on_page";
              ExperimentMetric.name := "Time on Page";
              ExperimentMetric.metric_type := mean;
              ExperimentMetric.event_name := "time_milestone";
              ExperimentMetric.description := Some "Time spent viewing the content";
              ExperimentMetric.funnel_steps := None;
              ExperimentMetric.math := Some total |} ];
       ExperimentTemplate.recommended_duration_days := 7;
       ExperimentTemplate.minimum_detectable_effect := 25 |};
    {| ExperimentTemplate.id := "conversion_funnel";
       ExperimentTemplate.name := "Conversion Funnel";
       ExperimentTemplate.description :=
         "Track multi-step conversion flows from view to action";
       ExperimentTemplate.icon := "funnel";
       ExperimentTemplate.metrics :=
         [ {| ExperimentMetric.id := "view_to_click";
              ExperimentMetric.name := "View to Click Conversion";
              ExperimentMetric.metric_type := funnel;
              ExperimentMetric.event_name := "$pageview";
              ExperimentMetric.description := Some "Conversion from page view to CTA click";
              ExperimentMetric.funnel_steps := Some ["$pageview"; "cta_clicked"];
              ExperimentMetric.math := None |} ];
       ExperimentTemplate.recommended_duration_days := 21;
       ExperimentTemplate.minimum_detectable_effect := 30 |};
    {| ExperimentTemplate.id := "custom";
       ExperimentTemplate.name := "Custom Experiment";
       ExperimentTemplate.description := "Configure your own metrics and settings";
       ExperimentTemplate.icon := "custom";
       ExperimentTemplate.metrics := [];
       ExperimentTemplate.recommended_duration_days := 14;
       ExperimentTemplate.minimum_detectable_effect := 30 |} ].

(** A field of a content item as the helpers see it: missing, a string, or
    a value of another type, of which only the truthiness matters. *)
Inductive FieldValue :=
| Missing
| Str (s : string)
| Other (truthy : bool).

Definition truthy (v : FieldValue) : bool :=
  match v with
  | Missing => false
  | Str s => negb (String.eqb s "")
  | Other b => b
  end.

(** A content item that is an object: its two fields. *)
Module ContentRecord.
Record t := {
  Variant : FieldValue;
  variant : FieldValue
}.
End ContentRecord.

(** An element of the list a content list answers with: an object, or an
    array of objects. *)
Inductive ContentElement :=
| Single (item : ContentRecord.t)
| Nested (items : list ContentRecord.t).

(** Lines 177-181; [None] is [null]. *)
Definition extractVariantKey (variantItem : ContentRecord.t) : option string :=
  let variant :=
    if truthy (ContentRecord.Variant variantItem)
    then ContentRecord.Variant variantItem
    else ContentRecord.variant variantItem in
  match variant with
  | Str s => Some s
  | _ => None
  end.

(** The body shared by the two loops of lines 188-204: [if (v) push(v)]. *)
Definition pushVariantKey (variantItem : ContentRecord.t) : list string :=
  match extractVariantKey variantItem with
  | Some v => if Js.truthy_str (Some v) then [v] else []
  | None => []
  end.

(** Lines 185-207. *)
Fixpoint extractAllVariantKeys (items : list ContentElement) : list string :=
  match items with
  | [] => []
  | Nested nestedItems :: rest =>
      flat_map pushVariantKey nestedItems ++ extractAllVariantKeys rest
  | Single item :: rest => pushVariantKey item ++ extractAllVariantKeys rest
  end.

(** Lines 210-235. *)
Definition convertMetricToPostHogFormat (metric : ExperimentMetric.t) : PostHogMetric.t :=
  if (is_funnel (ExperimentMetric.metric_type metric)
      && match ExperimentMetric.funnel_steps metric with
         | Some funnel_steps => (0 <? List.length funnel_steps)%nat
         | None => false
         end)%bool
  then
    {| PostHogMetric.kind := "ExperimentMetric";
       PostHogMetric.metric_type := funnel;
       PostHogMetric.name := ExperimentMetric.name metric;
       PostHogMetric.source := None;
       PostHogMetric.series :=
         Some
           (map
              (fun event =>
                 {| PostHogEventsNode.kind := "EventsNode";
                    PostHogEventsNode.event := event;
                    PostHogEventsNode.name := event;
                    PostHogEventsNode.math := None |})
              (Js.nullish_or (ExperimentMetric.funnel_steps metric) [])) |}
  else
    {| PostHogMetric.kind := "ExperimentMetric";
       PostHogMetric.metric_type := ExperimentMetric.metric_type metric;
       PostHogMetric.name := ExperimentMetric.name metric;
       PostHogMetric.source :=
         Some
           {| PostHogEventsNode.kind := "EventsNode";
              PostHogEventsNode.event := ExperimentMetric.event_name metric;
              PostHogEventsNode.name := ExperimentMetric.event_name metric;
              (* [metric.math || 'total']: every [math] is a truthy string *)
              PostHogEventsNode.math :=
                Some (Js.nullish_or (ExperimentMetric.math metric) total) |};
       PostHogMetric.series := None |}.

End ExperimentConfig.

(** ** Submitting the experiment: the guards, the loop and the split
    ([CreateExperiment.tsx], lines 171-234) *)

Module Submission.

Import ExperimentConfig.







(** Lines 225-234 on the values the loop pushed: the keys of the allocation
    are ["control"] and these values, strings or not. *)
Definition featureFlagVariants (variants : list FieldValue) (rollout : option Z)
  : list (FieldValue * Z) :=
  let allVariants := Str "control" :: variants in
  let totalVariants := Z.of_nat (List.length allVariants) in
  let effectiveRollout := Js.or_num rollout 100 in
  let basePercentage := effectiveRollout / totalVariants in
  let remainder := effectiveRollout - basePercentage * totalVariants in
  Js.map_index
    (fun variant index =>
       (variant, basePercentage + (if index <? remainder then 1 else 0)))
    allVariants.



End Submission.

(** ** The wizard's state and its handlers ([CreateExperiment.tsx], lines
    58-129 and 236-265) *)

Module PostHogExperimentPayload.
Record t := {
  name : string;
  description : string;
  feature_flag_key : string;
  start_date : string;
  type : string;
  filterTestAccounts : bool;
  metrics : list ExperimentConfig.PostHogMetric.t;
  feature_flag_variants : list CreateExperiment.FeatureFlagVariant;
  recommended_running_time : Z;
  recommended_sample_size : Z;
  minimum_detectable_effect : Z
}.
End PostHogExperimentPayload.

Module Wizard.

Import ExperimentConfig.

Inductive Step := template | configure | review.

(** The state the handlers of lines 83-129 read and write. *)
Record State := {
  step : Step;
  selectedTemplate : option ExperimentTemplate.t;
  experimentDescription : string;
  metrics : list ExperimentMetric.t;
  showAddMetric : bool;
  newMetricName : string;
  newMetricEvent : string;
  newMetricType : MetricType;
  newFunnelSteps : list string
}.

(** Lines 58-70: the state of a fresh wizard. *)
Definition initial : State :=
  {| step := template;
     selectedTemplate := None;
     experimentDescription := "";
     metrics := [];
     showAddMetric := false;
     newMetricName := "";
     newMetricEvent := "ab_test_cta_click";
     newMetricType := mean;
     newFunnelSteps := ["$pageview"; "ab_test_cta_click"] |}.

(** Lines 83-88. *)
Definition selectTemplate (t : ExperimentTemplate.t) (s : State) : State :=
  {| step := configure;
     selectedTemplate := Some t;
     experimentDescription := ExperimentTemplate.description t;
     metrics := ExperimentTemplate.metrics t;
     showAddMetric := showAddMetric s;
     newMetricName := newMetricName s;
     newMetricEvent := newMetricEvent s;
     newMetricType := newMetricType s;
     newFunnelSteps := newFunnelSteps s |}.

(** Lines 91-105; [id] is what [generateMetricId()] returned. *)
Definition addMetric (id : string) (s : State) : State :=
  let newMetric :=
    {| ExperimentMetric.id := id;
       ExperimentMetric.name :=
         if String.eqb (newMetricName s) ""
         then String.append "Metric "
                (Js.string_of_Z (Z.of_nat (List.length (metrics s)) + 1))
         else newMetricName s;
       ExperimentMetric.metric_type := newMetricType s;
       ExperimentMetric.event_name := newMetricEvent s;
       ExperimentMetric.description := None;
       ExperimentMetric.funnel_steps :=
         if is_funnel (newMetricType s) then Some (newFunnelSteps s) else None;
       ExperimentMetric.math := None |} in
  {| step := step s;
     selectedTemplate := selectedTemplate s;
     experimentDescription := experimentDescription s;
     metrics := metrics s ++ [newMetric];
     showAddMetric := false;
     newMetricName := "";
     newMetricEvent := "ab_test_cta_click";
     newMetricType := mean;
     newFunnelSteps := ["$pageview"; "ab_test_cta_click"] |}.

Definition with_metrics (metrics' : list ExperimentMetric.t) (s : State) : State :=
  {| step := step s;
     selectedTemplate := selectedTemplate s;
     experimentDescription := experimentDescription s;
     metrics := metrics';
     showAddMetric := showAddMetric s;
     newMetricName := newMetricName s;
     newMetricEvent := newMetricEvent s;
     newMetricType := newMetricType s;
     newFunnelSteps := newFunnelSteps s |}.

Definition with_newFunnelSteps (steps : list string) (s : State) : State :=
  {| step := step s;
     selectedTemplate := selectedTemplate s;
     experimentDescription := experimentDescription s;
     metrics := metrics s;
     showAddMetric := showAddMetric s;
     newMetricName := newMetricName s;
     newMetricEvent := newMetricEvent s;
     newMetricType := newMetricType s;
     newFunnelSteps := steps |}.

(** [setNewMetricName], [setNewMetricEvent], [setNewMetricType] and
    [setShowAddMetric], as the form's inputs call them. *)
Definition with_form (name event : string) (type : MetricType) (show : bool)
    (s : State) : State :=
  {| step := step s;
     selectedTemplate := selectedTemplate s;
     experimentDescription := experimentDescription s;
     metrics := metrics s;
     showAddMetric := show;
     newMetricName := name;
     newMetricEvent := event;
     newMetricType := type;
     newFunnelSteps := newFunnelSteps s |}.

(** [setStep] and [setExperimentDescription], as the buttons and the
    description field call them. *)
Definition with_experiment (step' : Step) (description : string) (s : State) : State :=
  {| step := step';
     selectedTemplate := selectedTemplate s;
     experimentDescription := description;
     metrics := metrics s;
     showAddMetric := showAddMetric s;
     newMetricName := newMetricName s;
     newMetricEvent := newMetricEvent s;
     newMetricType := newMetricType s;
     newFunnelSteps := newFunnelSteps s |}.

(** Lines 108-110. *)
Definition removeMetric (id : string) (s : State) : State :=
  with_metrics
    (filter (fun m => negb (String.eqb (ExperimentMetric.id m) id)) (metrics s)) s.

(** Lines 113-115. *)
Definition addFunnelStep (s : State) : State :=
  with_newFunnelSteps (newFunnelSteps s ++ ["$pageview"]) s.

(** [updated[index] = value] on a copy of [steps], for an index inside the
    array.  Past its end JavaScript grows the array and leaves holes, which
    a list of strings cannot hold: that case is not modelled ([None]).  The
    form only passes the index of a step it renders. *)
Fixpoint array_set {A : Type} (index : nat) (value : A) (steps : list A)
  : option (list A) :=
  match steps, index with
  | [], _ => None
  | _ :: rest, O => Some (value :: rest)
  | x :: rest, S index' =>
      match array_set index' value rest with
      | Some updated => Some (x :: updated)
      | None => None
      end
  end.

(** Lines 118-122. *)
Definition updateFunnelStep (index : nat) (value : string) (s : State) : option State :=
  match array_set index value (newFunnelSteps s) with
  | Some updated => Some (with_newFunnelSteps updated s)
  | None => None
  end.

(** [xs.filter((_, i) => i !== index)], the index counted from [i]. *)
Fixpoint filter_other_index {A : Type} (index i : nat) (xs : list A) : list A :=
  match xs with
  | [] => []
  | x :: rest =>
      if Nat.eqb i index
      then filter_other_index index (S i) rest
      else x :: filter_other_index index (S i) rest
  end.

(** Lines 125-129. *)
Definition removeFunnelStep (index : nat) (s : State) : State :=
  if (2 <? List.length (newFunnelSteps s))%nat
  then with_newFunnelSteps (filter_other_index index 0 (newFunnelSteps s)) s
  else s.

(** What the user does to the metrics form. *)
Inductive Action :=
| SelectTemplate (t : ExperimentTemplate.t)
| EditExperiment (step : Step) (description : string)
| EditForm (name event : string) (type : MetricType) (show : bool)
| AddMetric (id : string)
| RemoveMetric (id : string)
| AddFunnelStep
| UpdateFunnelStep (index : nat) (value : string)
| RemoveFunnelStep (index : nat).

Definition handle (a : Action) (s : State) : option State :=
  match a with
  | SelectTemplate t => Some (selectTemplate t s)
  | EditExperiment step description => Some (with_experiment step description s)
  | EditForm name event type show => Some (with_form name event type show s)
  | AddMetric id => Some (addMetric id s)
  | RemoveMetric id => Some (removeMetric id s)
  | AddFunnelStep => Some (addFunnelStep s)
  | UpdateFunnelStep index value => updateFunnelStep index value s
  | RemoveFunnelStep index => Some (removeFunnelStep index s)
  end.

(** The actions in order, from the state [s]. *)
Fixpoint run (actions : list Action) (s : State) : option State :=
  match actions with
  | [] => Some s
  | a :: rest =>
      match handle a s with
      | Some s' => run rest s'
      | None => None
      end
  end.

(** Every funnel metric of [ms] has at least two funnel steps. *)
Definition funnels_have_two_steps (ms : list ExperimentMetric.t) : Prop :=
  Forall
    (fun m =>
       is_funnel (ExperimentMetric.metric_type m) = true ->
       exists steps,
         ExperimentMetric.funnel_steps m = Some steps /\ (2 <= List.length steps)%nat)
    ms.

(** Lines 237-243: the metrics of the payload. *)
Definition finalMetrics (metrics : list ExperimentMetric.t) : list ExperimentMetric.t :=
  if (0 <? List.length metrics)%nat then metrics
  else
    [ {| ExperimentMetric.id := "default_cta";
         ExperimentMetric.name := "CTA Clicks";
         ExperimentMetric.metric_type := mean;
         ExperimentMetric.event_name := "ab_test_cta_click";
         ExperimentMetric.description := None;
         ExperimentMetric.funnel_steps := None;
         ExperimentMetric.math := Some total |} ].

(** Line 701: the number of metrics the review step announces,
    [metrics.length || 1]. *)
Definition reviewedMetricCount (metrics : list ExperimentMetric.t) : Z :=
  Js.or_z (Z.of_nat (List.length metrics)) 1.

(** Lines 236-265: the payload, given the feature-flag variants; [now] is
    [new Date().toISOString()]. *)
Definition experimentPayload (experimentKey experimentName experimentType now : string)
    (targeting : TargetingCriteria.t) (s : State)
    (featureFlagVariants : list CreateExperiment.FeatureFlagVariant)
  : PostHogExperimentPayload.t :=
  let postHogMetrics := map convertMetricToPostHogFormat (finalMetrics (metrics s)) in
  {| PostHogExperimentPayload.name := experimentName;
     PostHogExperimentPayload.description :=
       if String.eqb (experimentDescription s) ""
       then String.append "A/B test experiment for feature flag key: " experimentKey
       else experimentDescription s;
     PostHogExperimentPayload.feature_flag_key := experimentKey;
     PostHogExperimentPayload.start_date := now;
     PostHogExperimentPayload.type := experimentType;
     PostHogExperimentPayload.filterTestAccounts :=
       TargetingCriteria.filter_test_accounts targeting;
     PostHogExperimentPayload.metrics := postHogMetrics;
     PostHogExperimentPayload.feature_flag_variants := featureFlagVariants;
     PostHogExperimentPayload.recommended_running_time := 0;
     PostHogExperimentPayload.recommended_sample_size := 0;
     PostHogExperimentPayload.minimum_detectable_effect :=
       Js.or_num
         (option_map ExperimentTemplate.minimum_detectable_effect (selectedTemplate s))
         30 |}.

End Wizard.

(** ** The content items as the two collectors see them *)

Module ContentItems.

Import ExperimentConfig.

Definition field_string (v : FieldValue) : option string :=
  match v with
  | Str s => Some s
  | _ => None
  end.

Definition as_fields (r : ContentRecord.t) : CreateExperiment.VariantFields :=
  {| CreateExperiment.Variant := field_string (ContentRecord.Variant r);
     CreateExperiment.variant := field_string (ContentRecord.variant r) |}.

(** An array has no [Variant] field of its own, and an object no [length]. *)
Definition as_item (e : ContentElement) : CreateExperiment.VariantItem :=
  match e with
  | Single r =>
      {| CreateExperiment.own := as_fields r; CreateExperiment.elements := [] |}
  | Nested rs =>
      {| CreateExperiment.own :=
           {| CreateExperiment.Variant := None; CreateExperiment.variant := None |};
         CreateExperiment.elements := map as_fields rs |}
  end.

(** Both fields are strings or missing. *)
Definition string_fields (r : ContentRecord.t) : bool :=
  match ContentRecord.Variant r, ContentRecord.variant r with
  | Other _, _ | _, Other _ => false
  | _, _ => true
  end.

(** The element is an object, or an array of at most one object, with
    string fields. *)
Definition plain (e : ContentElement) : bool :=
  match e with
  | Single r => string_fields r
  | Nested [] => true
  | Nested [r] => string_fields r
  | Nested _ => false
  end.

End ContentItems.

(** ** The valid results of the route *)

Module Answers.

(** The metric results of the queries that answered [ok], in the order of
    the metrics. *)
Fixpoint ok_results (queryResponse : ExperimentMetric.t -> Route.Fetched QueryResult.t)
    (metrics : list ExperimentMetric.t) : list MetricResult.t :=
  match metrics with
  | [] => []
  | metric :: rest =>
      match queryResponse metric with
      | Route.Ok result =>
          {| MetricResult.metric := metric; MetricResult.result := result |}
          :: ok_results queryResponse rest
      | _ => ok_results queryResponse rest
      end
  end.

End Answers.

(** ** What the results panel shows ([ExperimentResults.tsx], lines 63-262) *)

Module DisplayedMetric.
Record t := {
  action_name : option string;
  variants : option (list DisplayedVariant.t)
}.
End DisplayedMetric.

Module ExperimentResultsData.
Record t := {
  probability : option (JsObject.t Q);
  significant : option bool;
  variants : option (list VariantResult.t);
  primary_metric_results : option (list DisplayedMetric.t)
}.
End ExperimentResultsData.

Module Panel.

Import ExperimentResults.

(** Lines 97-102: the defaults of the fields the panel reads. *)
Definition variants (results : ExperimentResultsData.t) : list VariantResult.t :=
  Js.nullish_or (ExperimentResultsData.variants results) [].

Definition probability (results : ExperimentResultsData.t) : JsObject.t Q :=
  Js.nullish_or (ExperimentResultsData.probability results) [].

Definition primaryMetrics (results : ExperimentResultsData.t) : list DisplayedMetric.t :=
  Js.nullish_or (ExperimentResultsData.primary_metric_results results) [].

(** Line 159: [probability[variant.key] || 0]; the key is taken to name no
    property that every object inherits. *)
Definition variantProb (results : ExperimentResultsData.t) (variant : VariantResult.t) : Q :=
  match JsObject.get (VariantResult.key variant) (probability results) with
  | Some prob => if Qeq_bool prob 0 then 0%Q else prob
  | None => 0%Q
  end.

(** Line 162: [variant.key === winningVariant.key && significant], as the
    condition it is used as. *)
Definition isWinning (results : ExperimentResultsData.t) (variant : VariantResult.t) : bool :=
  (String.eqb (VariantResult.key variant)
     (WinningVariant.key (winningVariant (probability results)))
   && Js.nullish_or (ExperimentResultsData.significant results) false)%bool.

(** The blocks of the panel's last [return] (lines 113-261) and the
    conditions that render them. *)
Record Blocks := {
  banner : bool;          (* line 118 *)
  totalBlock : bool;      (* line 147 *)
  variantsBlock : bool;   (* line 155 *)
  metricsBlock : bool;    (* line 220 *)
  waitingBlock : bool     (* line 254 *)
}.

Definition blocks (results : ExperimentResultsData.t) : Blocks :=
  let totalExposures := totalExposures (variants results) in
  {| banner :=
       match ExperimentResultsData.significant results with
       | Some _ => true
       | None => false
       end;
     totalBlock := 0 <? totalExposures;
     variantsBlock := (0 <? List.length (variants results))%nat;
     metricsBlock := (0 <? List.length (primaryMetrics results))%nat;
     waitingBlock :=
       (Nat.eqb (List.length (variants results)) 0
        && Nat.eqb (List.length (primaryMetrics results)) 0
        && (totalExposures =? 0))%bool |}.

(** What the component renders: the early returns of lines 64-94, on
    which none of the blocks is rendered, and the blocks otherwise. *)
Inductive View :=
| LoadingView                   (* "Loading results..." *)
| ErrorView (error : string)
| NoResultsView                 (* "No results data available yet." *)
| BlocksView (b : Blocks).

(** Lines 63-262. *)
Definition render (results : option ExperimentResultsData.t) (loading : bool)
    (error : option string) : View :=
  if loading then LoadingView
  else if Js.truthy_str error then ErrorView (Js.nullish_or error "")
  else
    match results with
    | None => NoResultsView
    | Some results => BlocksView (blocks results)
    end.

(** Whether a view renders the block [block]. *)
Definition shows (block : Blocks -> bool) (view : View) : bool :=
  match view with
  | BlocksView b => block b
  | _ => false
  end.

End Panel.

(** ** Data for the examples *)

Module Examples.

Definition cta_clicks : ExperimentMetric.t :=
  {| ExperimentMetric.kind := "ExperimentMetric";
     ExperimentMetric.name := "CTA Clicks";
     ExperimentMetric.uuid := "m-1";
     ExperimentMetric.series := [("EventsNode", "ab_test_cta_click")];
     ExperimentMetric.metric_type := "mean" |}.

(** A sample of a mean metric: only [sum] carries a success signal. *)
Definition mean_sample (key : string) (number_of_samples sum : option Z)
    (chance_to_win : option Q) : VariantData.t :=
  {| VariantData.key := key;
     VariantData.number_of_samples := number_of_samples;
     VariantData.step_counts := None;
     VariantData.success_count := None;
     VariantData.failure_count := None;
     VariantData.chance_to_win := chance_to_win;
     VariantData.sum := sum;
     VariantData.sum_squares := None |}.

Definition result_of (baseline : VariantData.t) (variant_results : list VariantData.t)
  : QueryResult.t :=
  {| QueryResult.baseline := Some baseline;
     QueryResult.variant_results := Some variant_results;
     QueryResult.probability := None;
     QueryResult.significant := None;
     QueryResult.credible_intervals := None |}.

Definition metric_result (baseline : VariantData.t)
    (variant_results : list VariantData.t) : MetricResult.t :=
  {| MetricResult.metric := cta_clicks;
     MetricResult.result := result_of baseline variant_results |}.

Definition experiment (metrics : option (list ExperimentMetric.t)) : Experiment.t :=
  {| Experiment.id := 7; Experiment.metrics := metrics |}.

End Examples.

(** * Properties *)

(** ** The traffic split *)

Section Allocation.

Import CreateExperiment.

Lemma map_index_from_length {A B : Type} (f : A -> Z -> B) (xs : list A) :
  forall index, List.length (Js.map_index_from f index xs) = List.length xs.
Proof.
  induction xs as [|x rest IH]; intros index; simpl; [reflexivity|].
  now rewrite IH.
Qed.

Lemma map_index_from_nth {A B : Type} (f : A -> Z -> B) (xs : list A) :
  forall index n,
    nth_error (Js.map_index_from f index xs) n
    = option_map (fun x => f x (index + Z.of_nat n)) (nth_error xs n).
Proof.
  induction xs as [|x rest IH]; intros index [|n]; simpl; try reflexivity.
  - now rewrite Z.add_0_r.
  - rewrite IH.
    replace (index + 1 + Z.of_nat n) with (index + Z.pos (Pos.of_succ_nat n)) by lia.
    reflexivity.
Qed.

Lemma map_index_from_keys (f : Z -> Z) (xs : list string) :
  forall index,
    map key
      (Js.map_index_from
         (fun variant i => {| key := variant; rollout_percentage := f i |}) index xs)
    = xs.
Proof.
  induction xs as [|x rest IH]; intros index; simpl; [reflexivity|].
  now rewrite IH.
Qed.

(** The sum of a split: [base] for each element, and one more for those
    whose index is below [remainder]. *)
Lemma sum_rollout_split (base remainder : Z) (xs : list string) :
  forall index,
    sum_rollout
      (Js.map_index_from
         (fun variant i =>
            {| key := variant;
               rollout_percentage := base + (if i <? remainder then 1 else 0) |})
         index xs)
    = Z.of_nat (List.length xs) * base
      + Z.max 0 (Z.min (Z.of_nat (List.length xs)) (remainder - index)).
Proof.
  induction xs as [|x rest IH]; intros index.
  - simpl. lia.
  - cbn [Js.map_index_from sum_rollout fold_right rollout_percentage List.length].
    fold (sum_rollout
            (Js.map_index_from
               (fun variant i =>
                  {| key := variant;
                     rollout_percentage := base + (if i <? remainder then 1 else 0) |})
               (index + 1) rest)).
    rewrite IH, Nat2Z.inj_succ.
    destruct (index <? remainder) eqn:E;
      [apply Z.ltb_lt in E | apply Z.ltb_ge in E]; lia.
Qed.

Lemma remainder_bounds (total n : Z) :
  0 < n -> 0 <= total - total / n * n < n.
Proof.
  intros Hn.
  pose proof (Z.mod_pos_bound total n Hn) as Hb.
  rewrite Z.mod_eq in Hb by lia.
  lia.
Qed.

Lemma featureFlagVariants_nth (allVariants : list string) (total : Z) (i : nat)
    (k : string) :
  nth_error allVariants i = Some k ->
  nth_error (featureFlagVariants allVariants total) i
  = Some {| key := k;
            rollout_percentage :=
              total / Z.of_nat (List.length allVariants)
              + (if Z.of_nat i
                    <? total
                       - total / Z.of_nat (List.length allVariants)
                         * Z.of_nat (List.length allVariants)
                 then 1 else 0) |}.
Proof.
  intros Hk. unfold featureFlagVariants, Js.map_index.
  rewrite map_index_from_nth, Hk. reflexivity.
Qed.

Lemma featureFlagVariants_sum (allVariants : list string) (total : Z) :
  allVariants <> [] ->
  sum_rollout (featureFlagVariants allVariants total) = total.
Proof.
  intros Hne. unfold featureFlagVariants, Js.map_index.
  rewrite sum_rollout_split.
  assert (0 < Z.of_nat (List.length allVariants)) as Hn
      by (destruct allVariants; [congruence | simpl; lia]).
  pose proof (remainder_bounds total _ Hn). lia.
Qed.

Lemma featureFlagVariants_keys (allVariants : list string) (total : Z) :
  map key (featureFlagVariants allVariants total) = allVariants.
Proof.
  unfold featureFlagVariants, Js.map_index.
  apply (map_index_from_keys
           (fun i =>
              total / Z.of_nat (List.length allVariants)
              + (if i <? total - total / Z.of_nat (List.length allVariants)
                                 * Z.of_nat (List.length allVariants)
                 then 1 else 0))).
Qed.

Lemma featureFlagVariants_nth_inv (allVariants : list string) (total : Z) (i : nat)
    (v : FeatureFlagVariant) :
  nth_error (featureFlagVariants allVariants total) i = Some v ->
  rollout_percentage v
  = total / Z.of_nat (List.length allVariants)
    + (if Z.of_nat i
          <? total
             - total / Z.of_nat (List.length allVariants)
               * Z.of_nat (List.length allVariants)
       then 1 else 0).
Proof.
  unfold featureFlagVariants, Js.map_index. rewrite map_index_from_nth.
  destruct (nth_error allVariants i) as [k|]; [|discriminate].
  cbn [option_map]. intros H. injection H as <-. reflexivity.
Qed.

(** The first version of the wizard is the split of a full rollout. *)
Lemma featureFlagVariants_v1 (variants : list string) :
  CreateExperimentV1.featureFlagVariants variants = allocation variants (Some 100).
Proof. reflexivity. Qed.

End Allocation.

Section AllocationClaims.

Import CreateExperiment.

(** C1.  For every non-empty list of variant keys, of length [n], and every
    integer [total] between 0 and 100, the split (lines 228-234) assigns the
    key at zero-based index [i] the percentage
    [base + (1 if i < remainder else 0)], where [base = floor(total / n)] and
    [remainder = total - base * n]; the remainder lies in [0, n), so exactly
    the first [remainder] keys in input order get the extra point; the keys
    keep their order; and the assigned percentages sum to [total]. *)
Theorem featureFlagVariants_split (allVariants : list string) (total : Z) (i : nat)
    (k : string) :
  0 <= total <= 100 ->
  nth_error allVariants i = Some k ->
  let n := Z.of_nat (List.length allVariants) in
  let base := total / n in
  let remainder := total - base * n in
  nth_error (featureFlagVariants allVariants total) i
  = Some {| key := k;
            rollout_percentage := base + (if Z.of_nat i <? remainder then 1 else 0) |}
  /\ 0 <= remainder < n
  /\ map key (featureFlagVariants allVariants total) = allVariants
  /\ sum_rollout (featureFlagVariants allVariants total) = total.
Proof.
  intros _ Hk n base remainder.
  assert (allVariants <> []) as Hne by (intros ->; destruct i; discriminate Hk).
  assert (0 < n) as Hn by (subst n; destruct allVariants; [congruence | simpl; lia]).
  split; [apply featureFlagVariants_nth; exact Hk|].
  split; [apply remainder_bounds; exact Hn|].
  split; [apply featureFlagVariants_keys|].
  apply featureFlagVariants_sum. exact Hne.
Qed.

Lemma featureFlagVariants_split_witness :
  0 <= 100 <= 100
  /\ nth_error ["control"; "variant_a"; "variant_b"] 0 = Some "control"
  /\ nth_error (featureFlagVariants ["control"; "variant_a"; "variant_b"] 100) 0
     = Some {| key := "control"; rollout_percentage := 34 |}
  /\ sum_rollout (featureFlagVariants ["control"; "variant_a"; "variant_b"] 100) = 100.
Proof.
  assert (0 <= 100 <= 100) as H1 by lia.
  assert (nth_error ["control"; "variant_a"; "variant_b"] 0 = Some "control") as H2
      by reflexivity.
  pose proof (featureFlagVariants_split ["control"; "variant_a"; "variant_b"] 100 0
                "control" H1 H2) as H.
  cbv zeta in H.
  destruct H as (Hnth & _ & _ & Hsum).
  split; [exact H1|].
  split; [exact H2|].
  split; [exact Hnth | exact Hsum].
Defined.

(** C4.  For every non-empty list of variant keys, the split of a total of
    [0] assigns every key the percentage [0], each key of the list getting
    its entry. *)
Theorem featureFlagVariants_of_zero (allVariants : list string) :
  allVariants <> [] ->
  Forall (fun v => rollout_percentage v = 0) (featureFlagVariants allVariants 0)
  /\ map key (featureFlagVariants allVariants 0) = allVariants
  /\ featureFlagVariants allVariants 0 <> [].
Proof.
  intros Hne.
  assert (map key (featureFlagVariants allVariants 0) = allVariants) as Hkeys
      by apply featureFlagVariants_keys.
  split; [|split; [exact Hkeys|]].
  - apply Forall_forall. intros v Hv.
    apply In_nth_error in Hv. destruct Hv as (i & Hi).
    rewrite (featureFlagVariants_nth_inv _ _ _ _ Hi).
    rewrite Zdiv_0_l. cbn [Z.mul Z.sub Z.opp Z.add].
    destruct (Z.of_nat i <? 0) eqn:E; [apply Z.ltb_lt in E; lia | reflexivity].
  - intros Hnil. rewrite Hnil in Hkeys. simpl in Hkeys. congruence.
Qed.

Lemma featureFlagVariants_of_zero_witness :
  ["control"; "variant_a"; "variant_b"] <> []
  /\ Forall (fun v => rollout_percentage v = 0)
       (featureFlagVariants ["control"; "variant_a"; "variant_b"] 0).
Proof.
  assert (["control"; "variant_a"; "variant_b"] <> []) as H by discriminate.
  split; [exact H|].
  exact (proj1 (featureFlagVariants_of_zero ["control"; "variant_a"; "variant_b"] H)).
Defined.

(** The wizard passes the split the requested rollout, or [100] when that
    is [0] or unset (line 227). *)
Lemma allocation_default (variants : list string) (rollout : option Z) :
  allocation variants rollout
  = featureFlagVariants ("control" :: variants) (Js.or_num rollout 100)
  /\ allocation variants (Some 0) = allocation variants (Some 100)
  /\ allocation variants None = allocation variants (Some 100).
Proof.
  split; [reflexivity|]. split; reflexivity.
Qed.

End AllocationClaims.

(** ** Objects as maps *)

Section ObjectLemmas.

Context {V : Type}.

Implicit Types (o : JsObject.t V) (k : string) (v : V).

Lemma get_update_same o k v :
  JsObject.has k o = true -> JsObject.get k (JsObject.update k v o) = Some v.
Proof.
  unfold JsObject.has.
  induction o as [|[k' v'] rest IH]; simpl; [discriminate|].
  destruct (String.eqb k' k) eqn:E; simpl; rewrite E; auto.
Qed.

Lemma get_update_other o k k' v :
  k' <> k -> JsObject.get k' (JsObject.update k v o) = JsObject.get k' o.
Proof.
  intros Hne.
  induction o as [|[k0 v0] rest IH]; simpl; [reflexivity|].
  destruct (String.eqb k0 k) eqn:E; simpl.
  - apply String.eqb_eq in E. subst k0.
    destruct (String.eqb k k') eqn:E'; [|reflexivity].
    apply String.eqb_eq in E'. congruence.
  - now rewrite IH.
Qed.

Lemma get_insert_index_same o k v i :
  JsObject.get k o = None -> JsObject.get k (JsObject.insert_index i k v o) = Some v.
Proof.
  induction o as [|[k' v'] rest IH]; simpl; intros Hnone.
  - now rewrite String.eqb_refl.
  - destruct (String.eqb k' k) eqn:E; [discriminate|].
    destruct (JsObject.array_index k') as [j|].
    + destruct (i <? j)%N; simpl.
      * now rewrite String.eqb_refl.
      * rewrite E. auto.
    + simpl. now rewrite String.eqb_refl.
Qed.

Lemma get_insert_index_other o k k' v i :
  k' <> k -> JsObject.get k' (JsObject.insert_index i k v o) = JsObject.get k' o.
Proof.
  intros Hne.
  assert (String.eqb k k' = false) as Hkk by (apply String.eqb_neq; congruence).
  induction o as [|[k0 v0] rest IH]; simpl.
  - now rewrite Hkk.
  - destruct (JsObject.array_index k0) as [j|].
    + destruct (i <? j)%N; simpl.
      * now rewrite Hkk.
      * now rewrite IH.
    + simpl. now rewrite Hkk.
Qed.

Lemma get_app_same o k v :
  JsObject.get k o = None -> JsObject.get k (o ++ [(k, v)]) = Some v.
Proof.
  induction o as [|[k' v'] rest IH]; simpl; intros Hnone.
  - now rewrite String.eqb_refl.
  - destruct (String.eqb k' k); [discriminate | auto].
Qed.

Lemma get_app_other o k k' v :
  k' <> k -> JsObject.get k' (o ++ [(k, v)]) = JsObject.get k' o.
Proof.
  intros Hne.
  induction o as [|[k0 v0] rest IH]; simpl.
  - destruct (String.eqb k k') eqn:E; [|reflexivity].
    apply String.eqb_eq in E. congruence.
  - now rewrite IH.
Qed.

(** Reading what was just assigned. *)
Lemma get_set_same o k v :
  JsObject.get k (JsObject.set k v o) = Some v.
Proof.
  unfold JsObject.set.
  destruct (JsObject.has k o) eqn:Hhas.
  - now apply get_update_same.
  - assert (JsObject.get k o = None) as Hnone.
    { unfold JsObject.has in Hhas. destruct (JsObject.get k o); [discriminate|reflexivity]. }
    destruct (JsObject.array_index k).
    + now apply get_insert_index_same.
    + now apply get_app_same.
Qed.

(** An assignment leaves the other keys as they were. *)
Lemma get_set_other o k k' v :
  k' <> k -> JsObject.get k' (JsObject.set k v o) = JsObject.get k' o.
Proof.
  intros Hne. unfold JsObject.set.
  destruct (JsObject.has k o).
  - now apply get_update_other.
  - destruct (JsObject.array_index k).
    + now apply get_insert_index_other.
    + now apply get_app_other.
Qed.

(** A key is listed exactly when it has a value. *)
Lemma get_none_iff_not_key o k :
  JsObject.get k o = None <-> ~ In k (JsObject.keys o).
Proof.
  unfold JsObject.keys.
  induction o as [|[k' v'] rest IH]; simpl.
  - tauto.
  - destruct (String.eqb k' k) eqn:E.
    + apply String.eqb_eq in E. split; [discriminate | tauto].
    + apply String.eqb_neq in E. rewrite IH. tauto.
Qed.

End ObjectLemmas.

(** ** The result transformation *)

Section Transformation.

Lemma or_num_0 (n : option Z) :
  Js.or_num n 0 = match n with Some z => z | None => 0 end.
Proof.
  destruct n as [z|]; [|reflexivity].
  unfold Js.or_num, Js.or_z.
  destruct (z =? 0) eqn:E; [|reflexivity].
  apply Z.eqb_eq in E. now subst z.
Qed.

Lemma allVariants_samples (r : QueryResult.t) :
  Route.allVariants (Some r) = map Route.allVariants_entry (Route.samples r).
Proof.
  unfold Route.allVariants, Route.samples.
  rewrite map_app.
  destruct (QueryResult.baseline r), (QueryResult.variant_results r); reflexivity.
Qed.

Lemma primary_metric_samples (m : MetricResult.t) :
  PrimaryMetric.variants (Route.primary_metric m)
  = map Route.metric_entry (Route.samples (MetricResult.result m)).
Proof.
  unfold Route.primary_metric, Route.samples. cbn [PrimaryMetric.variants].
  rewrite map_app.
  destruct (QueryResult.baseline (MetricResult.result m)); reflexivity.
Qed.

Lemma probability_samples (r : QueryResult.t) :
  Route.probability (Some r) = fold_left Route.record_chance (Route.samples r) [].
Proof.
  unfold Route.probability, Route.samples.
  destruct (QueryResult.baseline r), (QueryResult.variant_results r); reflexivity.
Qed.

Lemma get_fold_record_chance (vs : list VariantData.t) (k : string) :
  forall o,
    JsObject.get k (fold_left Route.record_chance vs o)
    = match Route.last_chance k vs with
      | Some chance => Some chance
      | None => JsObject.get k o
      end.
Proof.
  induction vs as [|v rest IH]; intros o; simpl; [reflexivity|].
  rewrite IH.
  destruct (Route.last_chance k rest) as [chance|]; [reflexivity|].
  unfold Route.record_chance.
  destruct (String.eqb (VariantData.key v) k) eqn:E.
  - apply String.eqb_eq in E. subst k.
    destruct (VariantData.chance_to_win v); [apply get_set_same | reflexivity].
  - apply String.eqb_neq in E.
    destruct (VariantData.chance_to_win v); [|reflexivity].
    apply get_set_other. congruence.
Qed.

Lemma last_chance_absent (vs : list VariantData.t) (k : string) :
  ~ In k (map VariantData.key vs) -> Route.last_chance k vs = None.
Proof.
  induction vs as [|v rest IH]; simpl; intros Hnot; [reflexivity|].
  rewrite IH by tauto.
  destruct (String.eqb (VariantData.key v) k) eqn:E; [|reflexivity].
  apply String.eqb_eq in E. tauto.
Qed.

Lemma last_chance_unique (vs : list VariantData.t) (v : VariantData.t) :
  NoDup (map VariantData.key vs) ->
  In v vs ->
  Route.last_chance (VariantData.key v) vs = VariantData.chance_to_win v.
Proof.
  induction vs as [|v0 rest IH]; simpl; intros Hnd Hin; [contradiction|].
  inversion Hnd as [|? ? Hnotin Hnd']; subst.
  destruct Hin as [-> | Hin].
  - rewrite last_chance_absent by assumption.
    now rewrite String.eqb_refl.
  - rewrite IH by assumption.
    destruct (VariantData.chance_to_win v) as [chance|]; [reflexivity|].
    destruct (String.eqb (VariantData.key v0) (VariantData.key v)) eqn:E; [|reflexivity].
    apply String.eqb_eq in E. exfalso. apply Hnotin. rewrite E.
    now apply in_map.
Qed.

(** C2 (as amended).  In the top-level [variants] list the success count of
    a sample is the first available of: the count at the first funnel step
    ([step_counts[0]]), the mean metric's [sum], the explicit
    [success_count], and [0].  In the variants of a metric's entry the same
    three values are tried in the same order, and the success count is absent
    (not [0]) when none is there.  A sample with a step count of 40 and a sum
    of 999 resolves to 40 in both. *)
Theorem success_count_precedence (m : MetricResult.t) (rest : list MetricResult.t) :
  map AllVariant.success_count
    (Transformed.variants (Route.transformResults (m :: rest)))
  = map
      (fun v =>
         Some
           match Route.step_counts_0 v with
           | Some step => step
           | None =>
               match VariantData.sum v with
               | Some total => total
               | None =>
                   match VariantData.success_count v with
                   | Some explicit => explicit
                   | None => 0
                   end
               end
           end)
      (Route.samples (MetricResult.result m))
  /\ map (fun entry => map MetricVariant.success_count (PrimaryMetric.variants entry))
       (Transformed.primary_metric_results (Route.transformResults (m :: rest)))
     = map
         (fun m' =>
            map
              (fun v =>
                 match Route.step_counts_0 v with
                 | Some step => Some step
                 | None =>
                     match VariantData.sum v with
                     | Some total => Some total
                     | None => VariantData.success_count v
                     end
                 end)
              (Route.samples (MetricResult.result m')))
         (m :: rest)
  /\ (forall v more,
        VariantData.step_counts v = Some (40 :: more) ->
        VariantData.sum v = Some 999 ->
        AllVariant.success_count (Route.allVariants_entry v) = Some 40
        /\ MetricVariant.success_count (Route.metric_entry v) = Some 40).
Proof.
  split; [|split].
  - cbn [Route.transformResults Transformed.variants].
    rewrite allVariants_samples, map_map.
    apply map_ext. intros v.
    unfold Route.allVariants_entry. cbn [AllVariant.success_count].
    destruct (Route.step_counts_0 v), (VariantData.sum v),
      (VariantData.success_count v); reflexivity.
  - cbn [Route.transformResults Transformed.primary_metric_results].
    rewrite map_map. apply map_ext. intros m'.
    rewrite primary_metric_samples, map_map.
    apply map_ext. intros v.
    unfold Route.metric_entry. cbn [MetricVariant.success_count].
    destruct (Route.step_counts_0 v), (VariantData.sum v); reflexivity.
  - intros v more Hsteps Hsum.
    unfold Route.allVariants_entry, Route.metric_entry, Route.step_counts_0.
    cbn [AllVariant.success_count MetricVariant.success_count].
    rewrite Hsteps. split; reflexivity.
Qed.

(** A sample with no step counts, no sum and no explicit success count has
    no success count in its metric's entry, where the specification has [0]. *)
Lemma metric_success_count_may_be_absent :
  map (fun entry => map MetricVariant.success_count (PrimaryMetric.variants entry))
    (Transformed.primary_metric_results
       (Route.transformResults
          [Examples.metric_result
             (Examples.mean_sample "control" (Some 10) None None) []]))
  = [[None]].
Proof. reflexivity. Qed.

(** C5.  In the probability mapping of the output, the key of a sample of
    the primary result holds the sample's [chance_to_win], copied as it is,
    when that is not null, and is absent (no entry, not a [0]) when it is
    null; the keys of the samples are distinct, as the keys of the variants
    of an experiment are. *)
Theorem probability_omits_null_chance (m : MetricResult.t) (rest : list MetricResult.t)
    (v : VariantData.t) :
  NoDup (map VariantData.key (Route.samples (MetricResult.result m))) ->
  In v (Route.samples (MetricResult.result m)) ->
  let probability := Transformed.probability (Route.transformResults (m :: rest)) in
  JsObject.get (VariantData.key v) probability = VariantData.chance_to_win v
  /\ (VariantData.chance_to_win v = None ->
      ~ In (VariantData.key v) (JsObject.keys probability))
  /\ (forall chance, VariantData.chance_to_win v = Some chance ->
      In (VariantData.key v, chance) (JsObject.entries probability)).
Proof.
  intros Hnd Hin probability.
  assert (JsObject.get (VariantData.key v) probability = VariantData.chance_to_win v)
    as Hget.
  { subst probability. cbn [Route.transformResults Transformed.probability].
    rewrite probability_samples, get_fold_record_chance.
    rewrite (last_chance_unique _ _ Hnd Hin).
    destruct (VariantData.chance_to_win v); reflexivity. }
  split; [exact Hget|]. split.
  - intros Hnull. apply get_none_iff_not_key. now rewrite Hget.
  - intros chance Hsome. rewrite Hsome in Hget. clear - Hget.
    unfold JsObject.entries.
    induction probability as [|[k' c'] o IH]; simpl in *; [discriminate|].
    destruct (String.eqb k' (VariantData.key v)) eqn:E.
    + apply String.eqb_eq in E. left. congruence.
    + right. auto.
Qed.

End Transformation.

Section TransformationClaims.

Lemma probability_omits_null_chance_witness :
  let m :=
    Examples.metric_result
      (Examples.mean_sample "control" (Some 1000) (Some 250) (Some (3 # 10)))
      [Examples.mean_sample "variant_a" (Some 1000) (Some 300) None] in
  let v := Examples.mean_sample "variant_a" (Some 1000) (Some 300) None in
  NoDup (map VariantData.key (Route.samples (MetricResult.result m)))
  /\ In v (Route.samples (MetricResult.result m))
  /\ JsObject.get "variant_a" (Transformed.probability (Route.transformResults [m]))
     = None
  /\ ~ In "variant_a" (JsObject.keys (Transformed.probability (Route.transformResults [m]))).
Proof.
  intros m v.
  assert (NoDup (map VariantData.key (Route.samples (MetricResult.result m)))) as Hnd.
  { simpl. constructor.
    - simpl. intros [H|[]]. discriminate H.
    - constructor; [intros [] | constructor]. }
  assert (In v (Route.samples (MetricResult.result m))) as Hin
      by (simpl; right; left; reflexivity).
  pose proof (probability_omits_null_chance m [] v Hnd Hin) as H.
  cbv zeta in H. destruct H as (Hget & Habsent & _).
  split; [exact Hnd|]. split; [exact Hin|].
  split; [exact Hget | exact (Habsent eq_refl)].
Defined.

(** C10.  In every output of the transformation, each element of the
    top-level [variants] list has [count] equal to [absolute_exposure], both
    being the sample's [number_of_samples], or [0] when that is missing; the
    list follows the samples of the primary result, the baseline first and
    then the other variants in the order they came in; and each variant of
    each metric's entry has [exposure] equal to [absolute_exposure], again
    the sample's [number_of_samples] or [0]. *)
Theorem transformResults_exposures (metricResults : list MetricResult.t) :
  let out := Route.transformResults metricResults in
  Forall (fun a => AllVariant.count a = AllVariant.absolute_exposure a)
    (Transformed.variants out)
  /\ Forall
       (fun entry =>
          Forall (fun e => MetricVariant.exposure e = MetricVariant.absolute_exposure e)
            (PrimaryMetric.variants entry))
       (Transformed.primary_metric_results out)
  /\ (forall m rest,
        metricResults = m :: rest ->
        map AllVariant.key (Transformed.variants out)
        = map VariantData.key (Route.samples (MetricResult.result m))
        /\ map AllVariant.count (Transformed.variants out)
           = map
               (fun v =>
                  match VariantData.number_of_samples v with
                  | Some n => n
                  | None => 0
                  end)
               (Route.samples (MetricResult.result m))
        /\ (forall baseline variant_results,
              QueryResult.baseline (MetricResult.result m) = Some baseline ->
              QueryResult.variant_results (MetricResult.result m) = Some variant_results ->
              map AllVariant.key (Transformed.variants out)
              = VariantData.key baseline :: map VariantData.key variant_results))
  /\ map (fun entry => map MetricVariant.key (PrimaryMetric.variants entry))
       (Transformed.primary_metric_results out)
     = map (fun m => map VariantData.key (Route.samples (MetricResult.result m)))
         metricResults
  /\ map (fun entry => map MetricVariant.exposure (PrimaryMetric.variants entry))
       (Transformed.primary_metric_results out)
     = map
         (fun m =>
            map
              (fun v =>
                 match VariantData.number_of_samples v with
                 | Some n => n
                 | None => 0
                 end)
              (Route.samples (MetricResult.result m)))
         metricResults.
Proof.
  intros out.
  assert (forall m rest, metricResults = m :: rest ->
            Transformed.variants out
            = map Route.allVariants_entry (Route.samples (MetricResult.result m)))
    as Hvariants.
  { intros m rest ->. subst out. cbn [Route.transformResults Transformed.variants].
    apply allVariants_samples. }
  split; [|split; [|split; [|split]]].
  - destruct metricResults as [|m rest].
    + constructor.
    + rewrite (Hvariants m rest eq_refl).
      apply Forall_forall. intros a Ha.
      apply in_map_iff in Ha. destruct Ha as (v & <- & _). reflexivity.
  - subst out. cbn [Route.transformResults Transformed.primary_metric_results].
    apply Forall_forall. intros entry Hentry.
    apply in_map_iff in Hentry. destruct Hentry as (m & <- & _).
    rewrite primary_metric_samples.
    apply Forall_forall. intros e He.
    apply in_map_iff in He. destruct He as (v & <- & _). reflexivity.
  - intros m rest Heq.
    rewrite (Hvariants m rest Heq), !map_map.
    split; [reflexivity|]. split.
    + apply map_ext. intros v.
      unfold Route.allVariants_entry. cbn [AllVariant.count]. apply or_num_0.
    + intros baseline variant_results Hb Hv.
      unfold Route.samples. rewrite Hb, Hv. reflexivity.
  - subst out. cbn [Route.transformResults Transformed.primary_metric_results].
    rewrite map_map. apply map_ext. intros m.
    now rewrite primary_metric_samples, map_map.
  - subst out. cbn [Route.transformResults Transformed.primary_metric_results].
    rewrite map_map. apply map_ext. intros m.
    rewrite primary_metric_samples, map_map.
    apply map_ext. intros v.
    unfold Route.metric_entry. cbn [MetricVariant.exposure]. apply or_num_0.
Qed.

End TransformationClaims.

(** ** The results panel *)

Section Panel.

Import ExperimentResults.

Lemma gt_true (prob best : Q) : gt prob best = true -> (best < prob)%Q.
Proof.
  unfold gt. intros H. apply negb_true_iff in H.
  apply Qnot_le_lt. intros Hle. apply Qle_bool_iff in Hle. congruence.
Qed.

Lemma gt_false (prob best : Q) : gt prob best = false -> (prob <= best)%Q.
Proof.
  unfold gt. intros H. apply negb_false_iff in H. now apply Qle_bool_iff.
Qed.

(** What the [reduce] leaves: the starting value when no entry exceeds it,
    and otherwise the first entry that no later entry exceeds and that
    exceeds all the entries before it. *)
Lemma fold_better (entries : list (string * Q)) :
  forall best,
    let found := fold_left better entries best in
    (found = best
     /\ forall k p, In (k, p) entries -> (p <= WinningVariant.prob best)%Q)
    \/ (exists before after,
          entries = before ++ (WinningVariant.key found, WinningVariant.prob found) :: after
          /\ (WinningVariant.prob best < WinningVariant.prob found)%Q
          /\ (forall k p, In (k, p) before -> (p < WinningVariant.prob found)%Q)
          /\ (forall k p, In (k, p) after -> (p <= WinningVariant.prob found)%Q)).
Proof.
  induction entries as [|[key prob] rest IH]; intros best; cbn zeta.
  - left. split; [reflexivity | intros k p []].
  - assert (fold_left better ((key, prob) :: rest) best
            = fold_left better rest
                (if gt prob (WinningVariant.prob best)
                 then {| WinningVariant.key := key; WinningVariant.prob := prob |}
                 else best)) as Hstep by reflexivity.
    rewrite Hstep. clear Hstep.
    destruct (gt prob (WinningVariant.prob best)) eqn:E.
    + apply gt_true in E.
      specialize (IH {| WinningVariant.key := key; WinningVariant.prob := prob |}).
      cbn zeta in IH.
      destruct IH as [(Hsame & Hle) | (before & after & Hsplit & Hlt & Hbefore & Hafter)].
      * right. exists [], rest. rewrite Hsame. cbn.
        split; [reflexivity|]. split; [exact E|]. split; [intros k p []|exact Hle].
      * right. exists ((key, prob) :: before), after. cbn in Hlt.
        split; [cbn; now rewrite <- Hsplit|].
        split; [now apply Qlt_trans with prob|].
        split; [|exact Hafter].
        intros k p [Heq | Hin]; [injection Heq as <- <-; exact Hlt | eauto].
    + apply gt_false in E.
      specialize (IH best). cbn zeta in IH.
      destruct IH as [(Hsame & Hle) | (before & after & Hsplit & Hlt & Hbefore & Hafter)].
      * left. split; [exact Hsame|].
        intros k p [Heq | Hin]; [injection Heq as <- <-; exact E | eauto].
      * right. exists ((key, prob) :: before), after.
        split; [cbn; now rewrite <- Hsplit|].
        split; [exact Hlt|].
        split; [|exact Hafter].
        intros k p [Heq | Hin]; [|eauto].
        injection Heq as <- <-. now apply Qle_lt_trans with (WinningVariant.prob best).
Qed.

(** C9 (as amended).  The winning variant is the first entry, in the order
    [Object.entries] lists the probability mapping, whose probability is the
    highest, when that probability is above [0]: every entry before it has
    a strictly lower probability and no entry after it has a higher one, so
    of two entries with the same highest probability the earlier wins.  When
    no entry has a probability above [0] there is no winner: the key is
    empty and the probability [0]. *)
Theorem winningVariant_first_maximum (probability : JsObject.t Q) :
  let winner := winningVariant probability in
  ((forall k p, In (k, p) (JsObject.entries probability) -> (p <= 0)%Q) ->
   winner = {| WinningVariant.key := ""; WinningVariant.prob := 0 |})
  /\ ((exists k p, In (k, p) (JsObject.entries probability) /\ (0 < p)%Q) ->
      exists before after,
        JsObject.entries probability
        = before ++ (WinningVariant.key winner, WinningVariant.prob winner) :: after
        /\ (0 < WinningVariant.prob winner)%Q
        /\ (forall k p, In (k, p) before -> (p < WinningVariant.prob winner)%Q)
        /\ (forall k p, In (k, p) after -> (p <= WinningVariant.prob winner)%Q)).
Proof.
  intros winner.
  pose proof (fold_better (JsObject.entries probability)
                {| WinningVariant.key := ""; WinningVariant.prob := 0 |}) as H.
  cbn zeta in H. fold (winningVariant probability) in H. fold winner in H.
  cbn [WinningVariant.prob] in H.
  destruct H as [(Hsame & Hle) | (before & after & Hsplit & Hlt & Hbefore & Hafter)].
  - split; [intros _; exact Hsame|].
    intros (k & p & Hin & Hpos). exfalso.
    apply (Qlt_not_le _ _ Hpos). eauto.
  - split.
    + intros Hall. exfalso.
      apply (Qlt_not_le _ _ Hlt).
      apply (Hall (WinningVariant.key winner)).
      rewrite Hsplit. apply in_or_app. right. now left.
    + intros _. exists before, after. auto.
Qed.

(** A mapping whose entries all have probability [0] has no winner, though
    the baseline is the first of the entries with the highest probability. *)
Lemma winningVariant_ignores_zero_chance :
  let probability :=
    Transformed.probability
      (Route.transformResults
         [Examples.metric_result
            (Examples.mean_sample "control" (Some 1000) (Some 250) (Some 0%Q))
            [Examples.mean_sample "variant_a" (Some 1000) (Some 300) (Some 0%Q)]]) in
  JsObject.entries probability = [("control", 0%Q); ("variant_a", 0%Q)]
  /\ winningVariant probability = {| WinningVariant.key := ""; WinningVariant.prob := 0 |}
  /\ WinningVariant.key (winningVariant probability) <> "control".
Proof.
  cbv zeta. split; [reflexivity|]. split; [reflexivity|].
  intros H. vm_compute in H. discriminate H.
Qed.

Lemma totalExposures_from (variants : list VariantResult.t) :
  forall sum,
    fold_left (fun sum v => sum + exposures v) variants sum
    = sum + fold_right Z.add 0 (map exposures variants).
Proof.
  induction variants as [|v rest IH]; intros sum; simpl.
  - lia.
  - rewrite IH. lia.
Qed.

(** C7.  [totalExposures] is the sum of the exposure counts of the
    variants; when it is [0] the percentage of every variant is [0], no
    division taking place, and when it is above [0] the percentage of a
    variant is its exposure count divided by the total, times [100]. *)
Theorem exposurePercent_of_total (variants : list VariantResult.t)
    (variant : VariantResult.t) :
  let total := totalExposures variants in
  total = fold_right Z.add 0 (map exposures variants)
  /\ (total = 0 -> exposurePercent total variant = 0%Q)
  /\ (0 < total ->
      exposurePercent total variant
      = (inject_Z (exposures variant) / inject_Z total * 100)%Q).
Proof.
  intros total. split; [|split].
  - subst total. unfold totalExposures. now rewrite totalExposures_from.
  - intros Hzero. unfold exposurePercent. now rewrite Hzero.
  - intros Hpos. unfold exposurePercent.
    apply Z.ltb_lt in Hpos. now rewrite Hpos.
Qed.



End Panel.

(** ** The order of the probability mapping *)

Section EntryOrder.

Lemma set_fresh_key (o : JsObject.t Q) (k : string) (chance : Q) :
  JsObject.get k o = None ->
  JsObject.array_index k = None ->
  JsObject.set k chance o = o ++ [(k, chance)].
Proof.
  intros Hnone Hindex. unfold JsObject.set, JsObject.has.
  now rewrite Hnone, Hindex.
Qed.

Lemma fold_record_chance_appends (vs : list VariantData.t) :
  forall o,
    NoDup (map VariantData.key vs) ->
    (forall v, In v vs -> JsObject.array_index (VariantData.key v) = None) ->
    (forall v, In v vs -> JsObject.get (VariantData.key v) o = None) ->
    fold_left Route.record_chance vs o = o ++ Route.chances vs.
Proof.
  induction vs as [|v rest IH]; intros o Hnd Hindex Hfresh; simpl.
  - now rewrite app_nil_r.
  - inversion Hnd as [|? ? Hnotin Hnd']; subst.
    unfold Route.record_chance at 2.
    destruct (VariantData.chance_to_win v) as [chance|].
    + rewrite set_fresh_key by (first [apply Hfresh | apply Hindex]; now left).
      rewrite IH; [now rewrite <- app_assoc | assumption | |].
      * intros x Hx. apply Hindex. now right.
      * intros x Hx. rewrite get_app_other; [apply Hfresh; now right|].
        intros Heq. apply Hnotin. rewrite <- Heq. now apply in_map.
    + apply IH; [assumption | |]; intros x Hx; [apply Hindex | apply Hfresh]; now right.
Qed.

(** When the keys of the samples are distinct and none is an array index,
    the probability mapping lists the samples that have a chance in the
    order of the samples: the baseline first. *)
Lemma probability_entries_in_sample_order (r : QueryResult.t) :
  NoDup (map VariantData.key (Route.samples r)) ->
  (forall v, In v (Route.samples r) -> JsObject.array_index (VariantData.key v) = None) ->
  JsObject.entries (Route.probability (Some r)) = Route.chances (Route.samples r).
Proof.
  intros Hnd Hindex.
  rewrite probability_samples.
  unfold JsObject.entries.
  now rewrite fold_record_chance_appends.
Qed.

(** A key that is an array index is listed before the keys that are not,
    whenever it was assigned: of two equal chances the variant ["1"] then
    wins over the baseline ["b"] that came first. *)
Example index_keys_are_listed_first :
  let probability :=
    Route.probability
      (Some (Examples.result_of
               (Examples.mean_sample "b" (Some 10) (Some 5) (Some (1 # 2)))
               [Examples.mean_sample "1" (Some 10) (Some 5) (Some (1 # 2))])) in
  JsObject.entries probability = [("1", 1 # 2); ("b", 1 # 2)]
  /\ WinningVariant.key (ExperimentResults.winningVariant probability) = "1".
Proof. split; reflexivity. Qed.

Example equal_chances_first_wins :
  WinningVariant.key
    (ExperimentResults.winningVariant
       (Route.probability
          (Some (Examples.result_of
                   (Examples.mean_sample "control" (Some 10) (Some 5) (Some (1 # 2)))
                   [Examples.mean_sample "variant_a" (Some 10) (Some 5) (Some (1 # 2))]))))
  = "control".
Proof. reflexivity. Qed.

End EntryOrder.

(** ** Examples of the split *)

Example allocation_three_way :
  CreateExperiment.allocation ["a"; "b"] (Some 100)
  = [ {| CreateExperiment.key := "control"; CreateExperiment.rollout_percentage := 34 |};
      {| CreateExperiment.key := "a"; CreateExperiment.rollout_percentage := 33 |};
      {| CreateExperiment.key := "b"; CreateExperiment.rollout_percentage := 33 |} ].
Proof. reflexivity. Qed.

Example allocation_single :
  CreateExperiment.allocation [] (Some 67)
  = [ {| CreateExperiment.key := "control"; CreateExperiment.rollout_percentage := 67 |} ].
Proof. reflexivity. Qed.

Example exposure_percent_of_empty_panel :
  ExperimentResults.exposurePercent (ExperimentResults.totalExposures [])
    {| VariantResult.key := "control";
       VariantResult.count := 0;
       VariantResult.absolute_exposure := 0;
       VariantResult.failure_count := None;
       VariantResult.success_count := Some 0 |}
  = 0%Q.
Proof. reflexivity. Qed.

(** * Further properties of the code *)

(** ** The split is even *)

Section EvenSplit.

Import CreateExperiment.

Lemma allocation_nth_inv (variants : list string) (rollout : option Z) (i : nat)
    (v : FeatureFlagVariant) :
  nth_error (allocation variants rollout) i = Some v ->
  let n := Z.of_nat (List.length ("control" :: variants)) in
  let total := Js.or_num rollout 100 in
  rollout_percentage v
  = total / n + (if Z.of_nat i <? total - total / n * n then 1 else 0).
Proof.
  intros Hv n total.
  unfold allocation, featureFlagVariants, Js.map_index in Hv.
  rewrite map_index_from_nth in Hv.
  destruct (nth_error ("control" :: variants) i) as [k|]; [|discriminate].
  cbn [option_map] in Hv. injection Hv as <-. reflexivity.
Qed.

(** X1.  Two entries of an allocation differ by at most one point, and an
    earlier entry never has less than a later one. *)
Theorem allocation_is_even (variants : list string) (rollout : option Z) (i j : nat)
    (v w : FeatureFlagVariant) :
  nth_error (allocation variants rollout) i = Some v ->
  nth_error (allocation variants rollout) j = Some w ->
  (i <= j)%nat ->
  rollout_percentage w <= rollout_percentage v <= rollout_percentage w + 1.
Proof.
  intros Hv Hw Hij.
  rewrite (allocation_nth_inv _ _ _ _ Hv), (allocation_nth_inv _ _ _ _ Hw).
  cbv zeta.
  set (r := Js.or_num rollout 100
            - Js.or_num rollout 100 / Z.of_nat (List.length ("control" :: variants))
              * Z.of_nat (List.length ("control" :: variants))).
  destruct (Z.of_nat i <? r) eqn:Ei, (Z.of_nat j <? r) eqn:Ej;
    try apply Z.ltb_lt in Ei; try apply Z.ltb_ge in Ei;
    try apply Z.ltb_lt in Ej; try apply Z.ltb_ge in Ej; lia.
Qed.

Lemma allocation_is_even_witness :
  nth_error (allocation ["variant_a"; "variant_b"] (Some 50)) 1
  = Some {| key := "variant_a"; rollout_percentage := 17 |}
  /\ nth_error (allocation ["variant_a"; "variant_b"] (Some 50)) 2
     = Some {| key := "variant_b"; rollout_percentage := 16 |}
  /\ (1 <= 2)%nat
  /\ 16 <= 17 <= 16 + 1.
Proof.
  assert (nth_error (allocation ["variant_a"; "variant_b"] (Some 50)) 1
          = Some {| key := "variant_a"; rollout_percentage := 17 |}) as H1 by reflexivity.
  assert (nth_error (allocation ["variant_a"; "variant_b"] (Some 50)) 2
          = Some {| key := "variant_b"; rollout_percentage := 16 |}) as H2 by reflexivity.
  assert (1 <= 2)%nat as H3 by lia.
  split; [exact H1|]. split; [exact H2|]. split; [exact H3|].
  exact (allocation_is_even _ _ _ _ _ _ H1 H2 H3).
Defined.

(** X2.  When the requested rollout is unset or between 0 and 100, every
    percentage of the allocation is between 0 and 100. *)
Theorem allocation_within_bounds (variants : list string) (rollout : option Z)
    (v : FeatureFlagVariant) :
  (forall t, rollout = Some t -> 0 <= t <= 100) ->
  In v (allocation variants rollout) ->
  0 <= rollout_percentage v <= 100.
Proof.
  intros Hrange Hin.
  apply In_nth_error in Hin. destruct Hin as (i & Hi).
  rewrite (allocation_nth_inv _ _ _ _ Hi). cbv zeta.
  set (n := Z.of_nat (List.length ("control" :: variants))).
  set (total := Js.or_num rollout 100).
  assert (0 < n) as Hn by (subst n; simpl; lia).
  assert (0 <= total <= 100) as Htotal.
  { subst total. destruct rollout as [t|]; [|simpl; lia].
    specialize (Hrange t eq_refl). unfold Js.or_num, Js.or_z.
    destruct (t =? 0); lia. }
  pose proof (remainder_bounds total n Hn) as Hr.
  assert (0 <= total / n) as Hbase by (apply Z.div_pos; lia).
  assert (total / n <= total / n * n) as Hmul by nia.
  destruct (Z.of_nat i <? total - total / n * n) eqn:E;
    [apply Z.ltb_lt in E | apply Z.ltb_ge in E]; lia.
Qed.

Lemma allocation_within_bounds_witness :
  (forall t, Some 70 = Some t -> 0 <= t <= 100)
  /\ In {| key := "control"; rollout_percentage := 35 |} (allocation ["variant_a"] (Some 70))
  /\ 0 <= 35 <= 100.
Proof.
  assert (forall t, Some 70 = Some t -> 0 <= t <= 100) as H1
      by (intros t Ht; injection Ht as <-; lia).
  assert (In {| key := "control"; rollout_percentage := 35 |}
            (allocation ["variant_a"] (Some 70))) as H2 by (left; reflexivity).
  split; [exact H1|]. split; [exact H2|].
  exact (allocation_within_bounds _ _ _ H1 H2).
Defined.

(** X3.  The first version of the wizard always allocates exactly 100
    points, over ["control"] followed by the variants, as the current wizard
    does for a full or an unset rollout. *)
Theorem first_wizard_allocates_100 (variants : list string) :
  sum_rollout (CreateExperimentV1.featureFlagVariants variants) = 100
  /\ map key (CreateExperimentV1.featureFlagVariants variants) = "control" :: variants
  /\ CreateExperimentV1.featureFlagVariants variants = allocation variants None.
Proof.
  rewrite featureFlagVariants_v1.
  split; [apply (featureFlagVariants_sum ("control" :: variants) 100); discriminate|].
  split; [apply featureFlagVariants_keys | reflexivity].
Qed.

End EvenSplit.

(** ** Submitting the experiment *)

Section Submitting.

Import ExperimentConfig.












End Submitting.

(** ** The configuration helpers *)

Section ConfigHelpers.

Import ExperimentConfig.

Lemma pushVariantKey_spec (r : ContentRecord.t) (k : string) :
  In k (pushVariantKey r) ->
  k <> ""
  /\ (ContentRecord.Variant r = Str k \/ ContentRecord.variant r = Str k).
Proof.
  unfold pushVariantKey, extractVariantKey.
  destruct (truthy (ContentRecord.Variant r)) eqn:Et.
  - destruct (ContentRecord.Variant r) as [|s|b]; try (intros []).
    destruct s as [|c s]; [intros []|]. cbn.
    intros [<- | []]. split; [discriminate | now left].
  - destruct (ContentRecord.variant r) as [|s|b]; try (intros []).
    destruct s as [|c s]; [intros []|]. cbn.
    intros [<- | []]. split; [discriminate | now right].
Qed.

(** The objects of a list of elements, the arrays flattened. *)
Lemma extractAllVariantKeys_flat (items : list ContentElement) :
  extractAllVariantKeys items
  = flat_map pushVariantKey
      (flat_map (fun e => match e with Single r => [r] | Nested rs => rs end) items).
Proof.
  induction items as [|[r|rs] rest IH]; simpl; [reflexivity| |].
  - now rewrite IH.
  - now rewrite flat_map_app, IH.
Qed.

(** X5.  [extractAllVariantKeys] returns no empty string; each key it
    returns is the [Variant] or the [variant] string of one of the objects,
    the arrays flattened; and the keys of a concatenation are the keys of its
    parts, in order. *)
Theorem extractAllVariantKeys_keys (items more : list ContentElement) :
  Forall
    (fun k =>
       k <> ""
       /\ exists r,
            In r (flat_map (fun e => match e with Single r => [r] | Nested rs => rs end)
                    items)
            /\ (ContentRecord.Variant r = Str k \/ ContentRecord.variant r = Str k))
    (extractAllVariantKeys items)
  /\ extractAllVariantKeys (items ++ more)
     = extractAllVariantKeys items ++ extractAllVariantKeys more.
Proof.
  split.
  - rewrite extractAllVariantKeys_flat.
    apply Forall_forall. intros k Hk.
    apply in_flat_map in Hk. destruct Hk as (r & Hr & Hk).
    destruct (pushVariantKey_spec r k Hk) as [Hne Hfield].
    split; [exact Hne|]. now exists r.
  - rewrite !extractAllVariantKeys_flat, !flat_map_app. reflexivity.
Qed.

Lemma variant_of_as_item_single (r : ContentRecord.t) :
  ContentItems.string_fields r = true ->
  match CreateExperiment.variant_of (ContentItems.as_item (Single r)) with
  | Some v => [v]
  | None => []
  end
  = pushVariantKey r.
Proof.
  unfold ContentItems.string_fields, CreateExperiment.variant_of, pushVariantKey,
    extractVariantKey, ContentItems.as_item, ContentItems.as_fields, Js.or_str.
  cbn.
  destruct (ContentRecord.Variant r) as [|[|c s]|b],
    (ContentRecord.variant r) as [|[|c' s']|b']; cbn; intros H;
    try discriminate H; reflexivity.
Qed.

Lemma variant_of_as_item_nested (r : ContentRecord.t) :
  ContentItems.string_fields r = true ->
  match CreateExperiment.variant_of (ContentItems.as_item (Nested [r])) with
  | Some v => [v]
  | None => []
  end
  = pushVariantKey r.
Proof.
  unfold ContentItems.string_fields, CreateExperiment.variant_of, pushVariantKey,
    extractVariantKey, ContentItems.as_item, ContentItems.as_fields, Js.or_str.
  cbn.
  destruct (ContentRecord.Variant r) as [|[|c s]|b],
    (ContentRecord.variant r) as [|[|c' s']|b']; cbn; intros H;
    try discriminate H; reflexivity.
Qed.

(** X6.  On content items whose fields are strings and whose arrays hold at
    most one object, the wizard's own loop collects the keys that
    [extractAllVariantKeys] returns. *)
Theorem collectors_agree (items : list ContentElement) :
  forallb ContentItems.plain items = true ->
  CreateExperiment.collect_variants (map ContentItems.as_item items)
  = extractAllVariantKeys items.
Proof.
  induction items as [|e rest IH]; intros Hplain; [reflexivity|].
  cbn [forallb] in Hplain. apply andb_true_iff in Hplain. destruct Hplain as [He Hrest].
  cbn [map CreateExperiment.collect_variants].
  specialize (IH Hrest).
  destruct e as [r | [|r [|r' rs]]]; cbn [ContentItems.plain] in He.
  - pose proof (variant_of_as_item_single r He) as Hr.
    cbn [extractAllVariantKeys]. rewrite <- Hr, <- IH.
    destruct (CreateExperiment.variant_of (ContentItems.as_item (Single r))); reflexivity.
  - cbn. exact IH.
  - pose proof (variant_of_as_item_nested r He) as Hr.
    cbn [extractAllVariantKeys flat_map]. rewrite app_nil_r, <- Hr, <- IH.
    destruct (CreateExperiment.variant_of (ContentItems.as_item (Nested [r]))); reflexivity.
  - discriminate He.
Qed.

Lemma collectors_agree_witness :
  forallb ContentItems.plain
    [ Single {| ContentRecord.Variant := Str "variant_a"; ContentRecord.variant := Missing |};
      Nested [ {| ContentRecord.Variant := Missing; ContentRecord.variant := Str "variant_b" |} ] ]
  = true
  /\ extractAllVariantKeys
       [ Single {| ContentRecord.Variant := Str "variant_a"; ContentRecord.variant := Missing |};
         Nested [ {| ContentRecord.Variant := Missing; ContentRecord.variant := Str "variant_b" |} ] ]
     = ["variant_a"; "variant_b"].
Proof.
  split; [reflexivity|].
  rewrite <- (collectors_agree
                [ Single {| ContentRecord.Variant := Str "variant_a";
                            ContentRecord.variant := Missing |};
                  Nested [ {| ContentRecord.Variant := Missing;
                              ContentRecord.variant := Str "variant_b" |} ] ]
                eq_refl).
  reflexivity.
Defined.

(** Of an array of two objects the wizard's loop reads the first only. *)
Example collectors_differ_on_arrays :
  let items :=
    [ Nested [ {| ContentRecord.Variant := Str "variant_a"; ContentRecord.variant := Missing |};
               {| ContentRecord.Variant := Str "variant_b"; ContentRecord.variant := Missing |} ] ] in
  extractAllVariantKeys items = ["variant_a"; "variant_b"]
  /\ CreateExperiment.collect_variants (map ContentItems.as_item items) = ["variant_a"].
Proof. split; reflexivity. Qed.

End ConfigHelpers.

(** ** The wizard's metrics form *)

Section MetricsForm.

Import ExperimentConfig Wizard.

Lemma array_set_length {A : Type} (steps : list A) :
  forall index value updated,
    array_set index value steps = Some updated ->
    List.length updated = List.length steps.
Proof.
  induction steps as [|x rest IH]; intros [|index] value updated; simpl;
    try discriminate.
  - intros H. injection H as <-. reflexivity.
  - destruct (array_set index value rest) as [u|] eqn:E; [|discriminate].
    intros H. injection H as <-. simpl. f_equal. eauto.
Qed.

Lemma filter_other_index_past {A : Type} (xs : list A) :
  forall index i, (index < i)%nat -> filter_other_index index i xs = xs.
Proof.
  induction xs as [|x rest IH]; intros index i Hlt; simpl; [reflexivity|].
  destruct (Nat.eqb i index) eqn:E; [apply Nat.eqb_eq in E; lia|].
  now rewrite IH by lia.
Qed.

(** What [filter] leaves when it drops the element at [index]. *)
Lemma filter_other_index_spec {A : Type} (xs : list A) :
  forall index i,
    (i <= index)%nat ->
    filter_other_index index i xs = firstn (index - i) xs ++ skipn (S (index - i)) xs.
Proof.
  induction xs as [|x rest IH]; intros index i Hle; simpl.
  - now rewrite firstn_nil.
  - destruct (Nat.eqb i index) eqn:E.
    + apply Nat.eqb_eq in E. subst i. rewrite Nat.sub_diag. simpl.
      apply filter_other_index_past. lia.
    + apply Nat.eqb_neq in E.
      replace (index - i)%nat with (S (index - S i)) by lia.
      simpl. f_equal. apply IH. lia.
Qed.

Lemma filter_other_index_length {A : Type} (xs : list A) (index : nat) :
  List.length (filter_other_index index 0 xs)
  = if (index <? List.length xs)%nat then pred (List.length xs) else List.length xs.
Proof.
  rewrite filter_other_index_spec by lia. rewrite Nat.sub_0_r.
  rewrite length_app, length_firstn, length_skipn.
  destruct (index <? List.length xs)%nat eqn:E;
    [apply Nat.ltb_lt in E | apply Nat.ltb_ge in E]; lia.
Qed.

(** X9.  [removeFunnelStep] drops the step at the index, and that step
    only, when the form has more than two steps, and does nothing when it
    has two or fewer: the form never gets below two steps through it. *)
Theorem removeFunnelStep_keeps_two (index : nat) (s : State) :
  let steps := newFunnelSteps s in
  let steps' := newFunnelSteps (removeFunnelStep index s) in
  ((2 < List.length steps)%nat ->
   steps' = firstn index steps ++ skipn (S index) steps)
  /\ ((List.length steps <= 2)%nat -> removeFunnelStep index s = s)
  /\ ((2 <= List.length steps)%nat -> (2 <= List.length steps')%nat).
Proof.
  cbv zeta. unfold removeFunnelStep.
  destruct (2 <? List.length (newFunnelSteps s))%nat eqn:E;
    [apply Nat.ltb_lt in E | apply Nat.ltb_ge in E].
  - cbn [with_newFunnelSteps newFunnelSteps].
    split; [intros _; rewrite filter_other_index_spec by lia; now rewrite Nat.sub_0_r|].
    split; [lia|].
    intros _. rewrite filter_other_index_length.
    destruct (index <? List.length (newFunnelSteps s))%nat; lia.
  - split; [lia|]. split; [reflexivity | trivial].
Qed.

(** X10.  Adding a funnel step and removing the last step again restores
    the form, when it had at least two steps. *)
Theorem removeFunnelStep_addFunnelStep (s : State) :
  (2 <= List.length (newFunnelSteps s))%nat ->
  newFunnelSteps
    (removeFunnelStep (List.length (newFunnelSteps s)) (addFunnelStep s))
  = newFunnelSteps s
  /\ metrics (removeFunnelStep (List.length (newFunnelSteps s)) (addFunnelStep s))
     = metrics s.
Proof.
  intros Hlen. unfold removeFunnelStep, addFunnelStep.
  cbn [with_newFunnelSteps newFunnelSteps].
  rewrite length_app. cbn [List.length].
  replace (2 <? List.length (newFunnelSteps s) + 1)%nat with true
    by (symmetry; apply Nat.ltb_lt; lia).
  cbn [with_newFunnelSteps newFunnelSteps metrics].
  split; [|reflexivity].
  rewrite filter_other_index_spec by lia. rewrite Nat.sub_0_r.
  rewrite firstn_app, Nat.sub_diag, firstn_all, firstn_O, app_nil_r.
  rewrite skipn_all2 by (rewrite length_app; simpl; lia).
  now rewrite app_nil_r.
Qed.

Lemma removeFunnelStep_addFunnelStep_witness :
  (2 <= List.length (newFunnelSteps initial))%nat
  /\ newFunnelSteps (removeFunnelStep 2 (addFunnelStep initial))
     = ["$pageview"; "ab_test_cta_click"].
Proof.
  assert (2 <= List.length (newFunnelSteps initial))%nat as H by (simpl; lia).
  split; [exact H|].
  exact (proj1 (removeFunnelStep_addFunnelStep initial H)).
Defined.

(** X11.  [removeMetric] removes every metric of the given id and keeps the
    others in order; removing an id no metric has changes nothing; and a
    metric added under a fresh id is gone again after removing that id, the
    earlier metrics being as before. *)
Theorem removeMetric_by_id (id : string) (s : State) :
  (forall m, In m (metrics (removeMetric id s)) <->
             In m (metrics s) /\ ExperimentMetric.id m <> id)
  /\ ((forall m, In m (metrics s) -> ExperimentMetric.id m <> id) ->
      metrics (removeMetric id s) = metrics s
      /\ metrics (removeMetric id (addMetric id s)) = metrics s).
Proof.
  assert (forall ms : list ExperimentMetric.t,
            (forall m, In m ms -> ExperimentMetric.id m <> id) ->
            filter (fun m => negb (String.eqb (ExperimentMetric.id m) id)) ms = ms)
    as Hkeep.
  { induction ms as [|m rest IH]; intros Hfresh; simpl; [reflexivity|].
    destruct (String.eqb (ExperimentMetric.id m) id) eqn:E.
    - apply String.eqb_eq in E. exfalso. apply (Hfresh m); [now left | exact E].
    - simpl. f_equal. apply IH. intros m' Hm'. apply Hfresh. now right. }
  split.
  - intros m. unfold removeMetric. cbn [with_metrics metrics].
    rewrite filter_In, negb_true_iff, String.eqb_neq. reflexivity.
  - intros Hfresh. unfold removeMetric, addMetric. cbn [with_metrics metrics].
    split; [now apply Hkeep|].
    rewrite filter_app. cbn [filter ExperimentMetric.id].
    rewrite String.eqb_refl. cbn [negb]. rewrite app_nil_r. now apply Hkeep.
Qed.

Lemma updateFunnelStep_keeps_length (index : nat) (value : string) (s s' : State) :
  updateFunnelStep index value s = Some s' ->
  List.length (newFunnelSteps s') = List.length (newFunnelSteps s)
  /\ metrics s' = metrics s.
Proof.
  unfold updateFunnelStep.
  destruct (array_set index value (newFunnelSteps s)) as [u|] eqn:E; [|discriminate].
  intros H. injection H as <-. cbn [with_newFunnelSteps newFunnelSteps metrics].
  split; [now apply (array_set_length _ _ _ _ E) | reflexivity].
Qed.

Lemma removeFunnelStep_length (index : nat) (s : State) :
  (2 <= List.length (newFunnelSteps s))%nat ->
  (2 <= List.length (newFunnelSteps (removeFunnelStep index s)))%nat.
Proof.
  intros Hlen. unfold removeFunnelStep.
  destruct (2 <? List.length (newFunnelSteps s))%nat eqn:E; [|exact Hlen].
  apply Nat.ltb_lt in E. cbn [with_newFunnelSteps newFunnelSteps].
  rewrite filter_other_index_length.
  destruct (index <? List.length (newFunnelSteps s))%nat; lia.
Qed.

Lemma templates_have_two_steps (t : ExperimentTemplate.t) :
  In t EXPERIMENT_TEMPLATES -> funnels_have_two_steps (ExperimentTemplate.metrics t).
Proof.
  intros Hin. unfold funnels_have_two_steps. apply Forall_forall. intros m Hm Hfunnel.
  cbn in Hin. destruct Hin as [<- | [<- | [<- | [<- | []]]]]; cbn in Hm;
    repeat (destruct Hm as [<- | Hm];
            [cbn in Hfunnel;
             first [discriminate Hfunnel
                   | eexists; split; [reflexivity | simpl; lia]]|]);
    destruct Hm.
Qed.

Lemma handle_keeps_two_steps (a : Action) (s s' : State) :
  (forall t, a = SelectTemplate t -> In t EXPERIMENT_TEMPLATES) ->
  handle a s = Some s' ->
  (2 <= List.length (newFunnelSteps s))%nat /\ funnels_have_two_steps (metrics s) ->
  (2 <= List.length (newFunnelSteps s'))%nat /\ funnels_have_two_steps (metrics s').
Proof.
  intros Htemplate Hhandle [Hsteps Hmetrics].
  destruct a as [t|step' description|name event type show|id|id| |index value|index];
    cbn [handle] in Hhandle.
  - injection Hhandle as <-. cbn [selectTemplate newFunnelSteps metrics].
    split; [exact Hsteps|].
    apply templates_have_two_steps, Htemplate. reflexivity.
  - injection Hhandle as <-. split; assumption.
  - injection Hhandle as <-. split; assumption.
  - injection Hhandle as <-. cbn [addMetric newFunnelSteps metrics].
    split; [simpl; lia|].
    unfold funnels_have_two_steps. apply Forall_app. split; [exact Hmetrics|].
    constructor; [|constructor].
    cbn [ExperimentMetric.metric_type ExperimentMetric.funnel_steps].
    intros ->. eexists. split; [reflexivity | exact Hsteps].
  - injection Hhandle as <-. cbn [removeMetric with_metrics newFunnelSteps metrics].
    split; [exact Hsteps|].
    unfold funnels_have_two_steps in *. rewrite Forall_forall in *.
    intros m Hm. apply filter_In in Hm. now apply Hmetrics.
  - injection Hhandle as <-. cbn [addFunnelStep with_newFunnelSteps newFunnelSteps metrics].
    split; [rewrite length_app; lia | exact Hmetrics].
  - destruct (updateFunnelStep_keeps_length index value s s' Hhandle) as [Hlen Hm].
    rewrite Hlen, Hm. split; assumption.
  - injection Hhandle as <-.
    split; [apply (removeFunnelStep_length index s Hsteps)|].
    unfold removeFunnelStep.
    destruct (2 <? List.length (newFunnelSteps s))%nat; exact Hmetrics.
Qed.

End MetricsForm.

(** ** The metrics the wizard sends *)

Section WizardMetrics.

Import ExperimentConfig Wizard.

Lemma run_keeps_two_steps (actions : list Action) :
  forall s s',
    Forall (fun a => forall t, a = SelectTemplate t -> In t EXPERIMENT_TEMPLATES) actions ->
    run actions s = Some s' ->
    (2 <= List.length (newFunnelSteps s))%nat /\ funnels_have_two_steps (metrics s) ->
    (2 <= List.length (newFunnelSteps s'))%nat /\ funnels_have_two_steps (metrics s').
Proof.
  induction actions as [|a rest IH]; intros s s' Hvalid Hrun Hinv; cbn [run] in Hrun.
  - injection Hrun as <-. exact Hinv.
  - inversion Hvalid as [|? ? Ha Hrest]; subst.
    destruct (handle a s) as [s1|] eqn:E; [|discriminate].
    apply (IH s1 s' Hrest Hrun).
    now apply (handle_keeps_two_steps a s s1 Ha E).
Qed.

Lemma converted_funnels_have_series (ms : list ExperimentMetric.t) :
  funnels_have_two_steps ms ->
  Forall
    (fun pm =>
       PostHogMetric.metric_type pm = funnel ->
       PostHogMetric.source pm = None
       /\ exists series,
            PostHogMetric.series pm = Some series /\ (2 <= List.length series)%nat)
    (map convertMetricToPostHogFormat ms).
Proof.
  unfold funnels_have_two_steps. intros Hms.
  apply Forall_forall. intros pm Hpm.
  apply in_map_iff in Hpm. destruct Hpm as (m & <- & Hm).
  rewrite Forall_forall in Hms. specialize (Hms m Hm).
  unfold convertMetricToPostHogFormat.
  destruct (ExperimentMetric.metric_type m) eqn:Etype; cbn [is_funnel andb];
    cbn [PostHogMetric.metric_type]; try discriminate.
  destruct (Hms eq_refl) as (steps & Hsteps & Hlen).
  rewrite Hsteps.
  destruct steps as [|step steps]; [simpl in Hlen; lia|].
  cbn [List.length Nat.ltb Nat.leb PostHogMetric.metric_type PostHogMetric.source
         PostHogMetric.series Js.nullish_or].
  intros _. split; [reflexivity|].
  eexists. split; [reflexivity|]. now rewrite length_map.
Qed.

(** X12.  Whatever the user does in the wizard (choosing one of the
    templates, editing the form, adding and removing metrics and funnel
    steps), the form keeps at least two funnel steps and every funnel metric
    has at least two steps; so every funnel metric of the payload is sent as
    a series of at least two events and never as a single source. *)
Theorem wizard_funnels_have_two_steps (actions : list Action) (s' : State) :
  Forall (fun a => forall t, a = SelectTemplate t -> In t EXPERIMENT_TEMPLATES) actions ->
  run actions initial = Some s' ->
  (2 <= List.length (newFunnelSteps s'))%nat
  /\ funnels_have_two_steps (metrics s')
  /\ Forall
       (fun pm =>
          PostHogMetric.metric_type pm = funnel ->
          PostHogMetric.source pm = None
          /\ exists series,
               PostHogMetric.series pm = Some series /\ (2 <= List.length series)%nat)
       (map convertMetricToPostHogFormat (finalMetrics (metrics s'))).
Proof.
  intros Hvalid Hrun.
  assert ((2 <= List.length (newFunnelSteps initial))%nat
          /\ funnels_have_two_steps (metrics initial)) as Hinit
      by (split; [simpl; lia | constructor]).
  destruct (run_keeps_two_steps actions initial s' Hvalid Hrun Hinit) as [Hsteps Hmetrics].
  split; [exact Hsteps|]. split; [exact Hmetrics|].
  apply converted_funnels_have_series.
  unfold finalMetrics.
  destruct (0 <? List.length (metrics s'))%nat; [exact Hmetrics|].
  constructor; [|constructor]. cbn. discriminate.
Qed.

Lemma wizard_funnels_have_two_steps_witness :
  Forall (fun a => forall t, a = SelectTemplate t -> In t EXPERIMENT_TEMPLATES)
    [AddFunnelStep; EditForm "Signups" "signup" funnel true; AddMetric "metric_1";
     RemoveFunnelStep 0]
  /\ exists s',
       run [AddFunnelStep; EditForm "Signups" "signup" funnel true; AddMetric "metric_1";
            RemoveFunnelStep 0] initial
       = Some s'
       /\ map ExperimentMetric.funnel_steps (metrics s')
          = [Some ["$pageview"; "ab_test_cta_click"; "$pageview"]]
       /\ (2 <= List.length (newFunnelSteps s'))%nat.
Proof.
  assert (Forall (fun a => forall t, a = SelectTemplate t -> In t EXPERIMENT_TEMPLATES)
            [AddFunnelStep; EditForm "Signups" "signup" funnel true; AddMetric "metric_1";
             RemoveFunnelStep 0]) as Hvalid
      by (repeat apply Forall_cons; try apply Forall_nil; intros t Ht; discriminate Ht).
  split; [exact Hvalid|].
  eexists. split; [reflexivity|]. split; [reflexivity|].
  exact (proj1 (wizard_funnels_have_two_steps _ _ Hvalid eq_refl)).
Defined.

(** X13.  The payload always carries at least one metric: the wizard's
    metrics in order, or the default metric of CTA clicks on
    [ab_test_cta_click] when there are none; their number is the one the
    review step announces; its description is never empty and its minimum
    detectable effect never 0. *)
Theorem experimentPayload_has_a_metric
    (experimentKey experimentName experimentType now : string)
    (targeting : TargetingCriteria.t) (s : State)
    (featureFlagVariants : list CreateExperiment.FeatureFlagVariant) :
  let payload :=
    experimentPayload experimentKey experimentName experimentType now targeting s
      featureFlagVariants in
  PostHogExperimentPayload.metrics payload <> []
  /\ Z.of_nat (List.length (PostHogExperimentPayload.metrics payload))
     = reviewedMetricCount (metrics s)
  /\ (metrics s <> [] ->
      PostHogExperimentPayload.metrics payload
      = map convertMetricToPostHogFormat (metrics s))
  /\ (metrics s = [] ->
      exists source,
        PostHogExperimentPayload.metrics payload
        = [ {| PostHogMetric.kind := "ExperimentMetric";
               PostHogMetric.metric_type := mean;
               PostHogMetric.name := "CTA Clicks";
               PostHogMetric.source := Some source;
               PostHogMetric.series := None |} ]
        /\ PostHogEventsNode.event source = "ab_test_cta_click"
        /\ PostHogEventsNode.math source = Some total)
  /\ PostHogExperimentPayload.description payload <> ""
  /\ PostHogExperimentPayload.minimum_detectable_effect payload <> 0.
Proof.
  intros payload. subst payload. unfold experimentPayload, finalMetrics, reviewedMetricCount.
  cbn [PostHogExperimentPayload.metrics PostHogExperimentPayload.description
         PostHogExperimentPayload.minimum_detectable_effect].
  split; [|split; [|split; [|split; [|split]]]].
  - destruct (metrics s); cbn; discriminate.
  - rewrite length_map. destruct (metrics s) as [|m ms]; [reflexivity|].
    cbn [List.length Nat.ltb Nat.leb]. unfold Js.or_z.
    destruct (Z.of_nat (S (List.length ms)) =? 0) eqn:E; [|reflexivity].
    apply Z.eqb_eq in E. lia.
  - intros Hne. destruct (metrics s); [contradiction | reflexivity].
  - intros ->. eexists. split; [reflexivity|]. split; reflexivity.
  - destruct (String.eqb (experimentDescription s) "") eqn:E.
    + discriminate.
    + now apply String.eqb_neq in E.
  - unfold Js.or_num, Js.or_z.
    destruct (option_map ExperimentTemplate.minimum_detectable_effect (selectedTemplate s))
      as [z|]; [|discriminate].
    destruct (z =? 0) eqn:E; [discriminate|]. now apply Z.eqb_neq in E.
Qed.

End WizardMetrics.

(** ** The answers of the route *)

Section RouteAnswers.

Variable queryResponse : ExperimentMetric.t -> Route.Fetched QueryResult.t.

Lemma promise_all_rejected {A : Type} (l : list (option A)) :
  Route.promise_all l = None <-> In None l.
Proof.
  induction l as [|[x|] rest IH]; simpl.
  - split; [discriminate | intros []].
  - destruct (Route.promise_all rest) as [xs|].
    + split; [discriminate|]. intros [H | H]; [discriminate H|].
      apply IH in H. discriminate H.
    + split; [intros _; right; now apply IH | reflexivity].
  - split; [now left | reflexivity].
Qed.

Lemma query_metric_rejected (metrics : list ExperimentMetric.t) :
  In None (map (Route.query_metric queryResponse) metrics)
  <-> exists metric, In metric metrics /\ queryResponse metric = Route.Rejected.
Proof.
  rewrite in_map_iff. unfold Route.query_metric.
  split; intros (metric & H1 & H2); exists metric.
  - split; [exact H2|]. destruct (queryResponse metric); try discriminate. reflexivity.
  - split; [|exact H1]. now rewrite H2.
Qed.

Lemma promise_all_ok_results (metrics : list ExperimentMetric.t) :
  forall metricResults,
    Route.promise_all (map (Route.query_metric queryResponse) metrics) = Some metricResults ->
    Route.filter_non_null metricResults = Answers.ok_results queryResponse metrics.
Proof.
  induction metrics as [|metric rest IH]; intros metricResults; simpl.
  - intros H. injection H as <-. reflexivity.
  - unfold Route.query_metric at 1.
    destruct (queryResponse metric) as [|status|result]; [discriminate| |];
      destruct (Route.promise_all (map (Route.query_metric queryResponse) rest))
        as [l|]; try discriminate;
      intros H; injection H as <-; simpl; now rewrite (IH l eq_refl).
Qed.

Lemma all_queries_not_ok (metrics : list ExperimentMetric.t) :
  (forall metric, In metric metrics -> exists status, queryResponse metric = Route.NotOk status) ->
  exists metricResults,
    Route.promise_all (map (Route.query_metric queryResponse) metrics) = Some metricResults
    /\ Route.filter_non_null metricResults = [].
Proof.
  induction metrics as [|metric rest IH]; intros Hall.
  - exists []. split; reflexivity.
  - destruct IH as (l & Hl & Hnil); [intros x Hx; apply Hall; now right|].
    destruct (Hall metric (or_introl eq_refl)) as (status & Hstatus).
    exists (None :: l). simpl.
    unfold Route.query_metric at 1. rewrite Hstatus, Hl. split; [reflexivity | exact Hnil].
Qed.

Lemma ok_results_nonempty (metrics : list ExperimentMetric.t) :
  (exists metric result, In metric metrics /\ queryResponse metric = Route.Ok result) ->
  Answers.ok_results queryResponse metrics <> [].
Proof.
  induction metrics as [|metric0 rest IH]; intros (metric & result & Hin & Hok).
  - destruct Hin.
  - simpl. destruct Hin as [-> | Hin].
    + rewrite Hok. discriminate.
    + destruct (queryResponse metric0); try discriminate; apply IH; eauto.
Qed.

(** C8.  With both credentials present and the experiment fetched: when the
    experiment has no metrics (none, or an empty list), and when every
    metric's query answers with a status that is not [ok], the handler
    skips the transformation and answers with the [noResults] marker; when
    the fetch of some metric's query fails, the answer is not the marker but
    the error of the [catch] block, with status 500, whatever the other
    queries answered; and when no fetch fails and some query answers [ok],
    the answer is the transformation of the [ok] results, whatever their
    counts, which is a different answer from the marker. *)
Theorem GET_no_results_or_error (apiKey projectId : option string)
    (experiment : Experiment.t) :
  Js.truthy_str apiKey = true ->
  Js.truthy_str projectId = true ->
  (Experiment.metrics experiment = None \/ Experiment.metrics experiment = Some [] ->
   Route.GET apiKey projectId (Route.Ok experiment) queryResponse
   = Route.NoResults "No metrics configured")
  /\ (forall metrics,
        Experiment.metrics experiment = Some metrics ->
        metrics <> [] ->
        ((forall metric, In metric metrics ->
                         exists status, queryResponse metric = Route.NotOk status) ->
         Route.GET apiKey projectId (Route.Ok experiment) queryResponse
         = Route.NoResults "No valid metric results")
        /\ ((exists metric, In metric metrics /\ queryResponse metric = Route.Rejected) ->
            Route.GET apiKey projectId (Route.Ok experiment) queryResponse
            = Route.Error "Failed to fetch experiment results" 500)
        /\ ((forall metric, In metric metrics -> queryResponse metric <> Route.Rejected) ->
            (exists metric result,
               In metric metrics /\ queryResponse metric = Route.Ok result) ->
            Answers.ok_results queryResponse metrics <> []
            /\ Route.GET apiKey projectId (Route.Ok experiment) queryResponse
               = Route.Results
                   (Route.transformResults (Answers.ok_results queryResponse metrics))))
  /\ (forall reason transformedResults,
        Route.NoResults reason <> Route.Results transformedResults).
Proof.
  intros Hk Hp.
  split; [|split].
  - unfold Route.GET. rewrite Hk, Hp. cbn [negb orb].
    intros [-> | ->]; reflexivity.
  - intros metrics Hm Hne.
    unfold Route.GET. rewrite Hk, Hp, Hm. cbn [negb orb].
    destruct metrics as [|metric0 rest]; [congruence|].
    split; [|split].
    + intros Hall.
      destruct (all_queries_not_ok (metric0 :: rest) Hall) as (l & Hl & Hnil).
      now rewrite Hl, Hnil.
    + intros Hrej.
      assert (Route.promise_all
                (map (Route.query_metric queryResponse) (metric0 :: rest)) = None) as Hnone
          by (apply promise_all_rejected, query_metric_rejected; exact Hrej).
      now rewrite Hnone.
    + intros Hnorej Hok.
      pose proof (ok_results_nonempty (metric0 :: rest) Hok) as Hvalid.
      split; [exact Hvalid|].
      destruct (Route.promise_all (map (Route.query_metric queryResponse) (metric0 :: rest)))
        as [metricResults|] eqn:Eall.
      * rewrite (promise_all_ok_results _ _ Eall).
        destruct (Answers.ok_results queryResponse (metric0 :: rest));
          [congruence | reflexivity].
      * apply promise_all_rejected, query_metric_rejected in Eall.
        destruct Eall as (m & Hin & Hrej). exfalso. now apply (Hnorej m Hin).
  - discriminate.
Qed.

(** X14.  The handler answers with an error exactly when a credential is
    missing, or the experiment could not be fetched (the fetch failed or its
    answer was not ok), or the fetch of one of the metrics' queries failed;
    a query whose answer is merely not ok never causes an error. *)
Theorem GET_error_iff (apiKey projectId : option string)
    (experimentResponse : Route.Fetched Experiment.t) :
  (exists error status,
     Route.GET apiKey projectId experimentResponse queryResponse = Route.Error error status)
  <-> (Js.truthy_str apiKey = false
       \/ Js.truthy_str projectId = false
       \/ experimentResponse = Route.Rejected
       \/ (exists status, experimentResponse = Route.NotOk status)
       \/ exists experiment metrics metric,
            experimentResponse = Route.Ok experiment
            /\ Experiment.metrics experiment = Some metrics
            /\ In metric metrics
            /\ queryResponse metric = Route.Rejected).
Proof.
  unfold Route.GET.
  destruct (Js.truthy_str apiKey) eqn:Ek; cbn [negb orb];
    [|split; [intros _; now left | intros _; eauto]].
  destruct (Js.truthy_str projectId) eqn:Ep; cbn [negb];
    [|split; [intros _; right; now left | intros _; eauto]].
  destruct experimentResponse as [|status|experiment].
  - split; [intros _; right; right; now left | intros _; eauto].
  - split; [intros _; right; right; right; left; eauto | intros _; eauto].
  - destruct (Experiment.metrics experiment) as [[|metric0 metrics]|] eqn:Em.
    + split; [intros (e & st & H); discriminate H|].
      intros [H|[H|[H|[(st & H)|(ex & ms & m & Hex & Hms & Hin & _)]]]];
        try discriminate.
      injection Hex as <-. rewrite Em in Hms. injection Hms as <-. destruct Hin.
    + destruct (Route.promise_all (map (Route.query_metric queryResponse) (metric0 :: metrics)))
        as [metricResults|] eqn:Eall.
      * split.
        -- destruct (Route.filter_non_null metricResults);
             intros (e & st & H); discriminate H.
        -- intros [H|[H|[H|[(st & H)|(ex & ms & m & Hex & Hms & Hin & Hrej)]]]];
             try discriminate.
           injection Hex as <-. rewrite Em in Hms. injection Hms as <-.
           assert (Route.promise_all
                     (map (Route.query_metric queryResponse) (metric0 :: metrics)) = None)
             as Hnone by (apply promise_all_rejected, query_metric_rejected; eauto).
           congruence.
      * split; [|intros _; eauto].
        intros _. right; right; right; right.
        apply promise_all_rejected, query_metric_rejected in Eall.
        destruct Eall as (m & Hin & Hrej).
        exists experiment, (metric0 :: metrics), m. auto.
    + split; [intros (e & st & H); discriminate H|].
      intros [H|[H|[H|[(st & H)|(ex & ms & m & Hex & Hms & _)]]]]; try discriminate.
      injection Hex as <-. rewrite Em in Hms. discriminate Hms.
Qed.

(** X15.  With the credentials present, the experiment fetched and no
    query's fetch failing, the handler transforms the results of the queries
    that answered ok, in the order of the experiment's metrics, the others
    being left out: the primary result is that of the first metric whose
    query answered ok.  When none did, the answer is the [noResults]
    marker. *)
Theorem GET_keeps_the_ok_queries (apiKey projectId : option string)
    (experiment : Experiment.t) (metrics : list ExperimentMetric.t) :
  Js.truthy_str apiKey = true ->
  Js.truthy_str projectId = true ->
  Experiment.metrics experiment = Some metrics ->
  (forall metric, In metric metrics -> queryResponse metric <> Route.Rejected) ->
  Route.GET apiKey projectId (Route.Ok experiment) queryResponse
  = match Answers.ok_results queryResponse metrics with
    | [] =>
        Route.NoResults
          match metrics with
          | [] => "No metrics configured"
          | _ => "No valid metric results"
          end
    | validResults => Route.Results (Route.transformResults validResults)
    end.
Proof.
  intros Hk Hp Hm Hok. unfold Route.GET. rewrite Hk, Hp, Hm. cbn [negb orb].
  destruct metrics as [|metric0 rest]; [reflexivity|].
  destruct (Route.promise_all (map (Route.query_metric queryResponse) (metric0 :: rest)))
    as [metricResults|] eqn:Eall.
  - rewrite (promise_all_ok_results _ _ Eall).
    destruct (Answers.ok_results queryResponse (metric0 :: rest)); reflexivity.
  - apply promise_all_rejected, query_metric_rejected in Eall.
    destruct Eall as (m & Hin & Hrej). exfalso. now apply (Hok m Hin).
Qed.

End RouteAnswers.

Lemma GET_no_results_or_error_witness :
  let zero := Examples.mean_sample "control" (Some 0) (Some 0) None in
  let answer (_ : ExperimentMetric.t) := Route.Ok (Examples.result_of zero []) in
  Js.truthy_str (Some "phx_key") = true
  /\ Js.truthy_str (Some "12345") = true
  /\ Route.GET (Some "phx_key") (Some "12345")
       (Route.Ok (Examples.experiment (Some [Examples.cta_clicks]))) answer
     = Route.Results (Route.transformResults [Examples.metric_result zero []]).
Proof.
  intros zero answer.
  split; [reflexivity|]. split; [reflexivity|].
  destruct (GET_no_results_or_error answer (Some "phx_key") (Some "12345")
              (Examples.experiment (Some [Examples.cta_clicks])) eq_refl eq_refl)
    as (_ & Hmetrics & _).
  assert ([Examples.cta_clicks] <> []) as Hne by discriminate.
  destruct (Hmetrics [Examples.cta_clicks] eq_refl Hne) as (_ & _ & Hok).
  destruct Hok as [_ Hreply].
  - intros metric _. discriminate.
  - exists Examples.cta_clicks, (Examples.result_of zero []).
    split; [now left | reflexivity].
  - exact Hreply.
Defined.

(** A query whose fetch fails is a failed query, and the answer is the
    error of status 500, not the marker. *)
Lemma GET_failed_query_is_an_error :
  Route.GET (Some "phx_key") (Some "12345")
    (Route.Ok (Examples.experiment (Some [Examples.cta_clicks])))
    (fun _ => Route.Rejected)
  = Route.Error "Failed to fetch experiment results" 500
  /\ (forall reason,
        Route.GET (Some "phx_key") (Some "12345")
          (Route.Ok (Examples.experiment (Some [Examples.cta_clicks])))
          (fun _ => Route.Rejected)
        <> Route.NoResults reason).
Proof.
  split; [reflexivity | intros reason H; discriminate H].
Qed.

Lemma GET_keeps_the_ok_queries_witness :
  let slow :=
    {| ExperimentMetric.kind := "ExperimentMetric";
       ExperimentMetric.name := "Slow";
       ExperimentMetric.uuid := "m-0";
       ExperimentMetric.series := [];
       ExperimentMetric.metric_type := "mean" |} in
  let answer metric :=
    if String.eqb (ExperimentMetric.uuid metric) "m-1"
    then Route.Ok (Examples.result_of
                     (Examples.mean_sample "control" (Some 10) (Some 5) None) [])
    else Route.NotOk 504 in
  Js.truthy_str (Some "phx_key") = true
  /\ Js.truthy_str (Some "12345") = true
  /\ (forall metric, In metric [slow; Examples.cta_clicks] -> answer metric <> Route.Rejected)
  /\ Route.GET (Some "phx_key") (Some "12345")
       (Route.Ok (Examples.experiment (Some [slow; Examples.cta_clicks]))) answer
     = Route.Results
         (Route.transformResults
            [Examples.metric_result
               (Examples.mean_sample "control" (Some 10) (Some 5) None) []]).
Proof.
  intros slow answer.
  assert (forall metric, In metric [slow; Examples.cta_clicks] ->
                         answer metric <> Route.Rejected) as Hok.
  { intros metric [<- | [<- | []]]; discriminate. }
  split; [reflexivity|]. split; [reflexivity|]. split; [exact Hok|].
  exact (GET_keeps_the_ok_queries answer (Some "phx_key") (Some "12345")
           (Examples.experiment (Some [slow; Examples.cta_clicks]))
           [slow; Examples.cta_clicks] eq_refl eq_refl eq_refl Hok).
Defined.

(** ** The keys of the probability mapping *)

Section ProbabilityKeys.

Lemma keys_update {V : Type} (o : JsObject.t V) (k : string) (v : V) :
  JsObject.keys (JsObject.update k v o) = JsObject.keys o.
Proof.
  unfold JsObject.keys.
  induction o as [|[k' v'] rest IH]; simpl; [reflexivity|].
  destruct (String.eqb k' k); simpl; [reflexivity | now rewrite IH].
Qed.

Lemma keys_insert_index {V : Type} (o : JsObject.t V) (k : string) (v : V) (i : N) :
  Add k (JsObject.keys o) (JsObject.keys (JsObject.insert_index i k v o)).
Proof.
  unfold JsObject.keys.
  induction o as [|[k' v'] rest IH]; simpl; [constructor|].
  destruct (JsObject.array_index k') as [j|].
  - destruct (i <? j)%N; simpl; [constructor | now constructor].
  - simpl. constructor.
Qed.

Lemma keys_set {V : Type} (o : JsObject.t V) (k : string) (v : V) :
  (JsObject.has k o = true /\ JsObject.keys (JsObject.set k v o) = JsObject.keys o)
  \/ (~ In k (JsObject.keys o)
      /\ Add k (JsObject.keys o) (JsObject.keys (JsObject.set k v o))).
Proof.
  unfold JsObject.set.
  destruct (JsObject.has k o) eqn:Hhas.
  - left. split; [reflexivity | apply keys_update].
  - right.
    assert (JsObject.get k o = None) as Hnone.
    { unfold JsObject.has in Hhas. destruct (JsObject.get k o); [discriminate|reflexivity]. }
    split; [now apply get_none_iff_not_key|].
    destruct (JsObject.array_index k).
    + apply keys_insert_index.
    + unfold JsObject.keys. rewrite map_app. simpl.
      rewrite <- (app_nil_r (map fst o)) at 1. apply Add_app.
Qed.

Lemma keys_set_nodup {V : Type} (o : JsObject.t V) (k : string) (v : V) :
  NoDup (JsObject.keys o) -> NoDup (JsObject.keys (JsObject.set k v o)).
Proof.
  intros Hnd.
  destruct (keys_set o k v) as [[_ Heq] | [Hnot Hadd]].
  - now rewrite Heq.
  - apply (NoDup_Add Hadd). now split.
Qed.

Lemma fold_record_chance_nodup (vs : list VariantData.t) :
  forall o,
    NoDup (JsObject.keys o) ->
    NoDup (JsObject.keys (fold_left Route.record_chance vs o)).
Proof.
  induction vs as [|v rest IH]; intros o Hnd; simpl; [exact Hnd|].
  apply IH. unfold Route.record_chance.
  destruct (VariantData.chance_to_win v); [now apply keys_set_nodup | exact Hnd].
Qed.

Lemma last_chance_some (vs : list VariantData.t) (k : string) :
  Route.last_chance k vs <> None
  <-> exists v, In v vs /\ VariantData.key v = k /\ VariantData.chance_to_win v <> None.
Proof.
  induction vs as [|v rest IH]; simpl.
  - split; [congruence | intros (v & [] & _)].
  - destruct (Route.last_chance k rest) as [chance|] eqn:E.
    + split; [|discriminate]. intros _.
      destruct (proj1 IH) as (w & Hw & Hk & Hc); [discriminate|].
      exists w. auto.
    + destruct (String.eqb (VariantData.key v) k) eqn:Ek.
      * apply String.eqb_eq in Ek. split.
        -- intros Hc. exists v. auto.
        -- intros (w & [<- | Hw] & Hk & Hc); [exact Hc|].
           exfalso. apply (proj2 IH); [eauto | reflexivity].
      * apply String.eqb_neq in Ek. split; [congruence|].
        intros (w & [<- | Hw] & Hk & Hc); [contradiction|].
        exfalso. apply (proj2 IH); [eauto | reflexivity].
Qed.

(** X16.  The probability mapping of the output lists no key twice; a key
    is in it exactly when a sample of the primary result with that key has a
    chance to win; and under a key it holds the chance of the last such
    sample, so that of two samples with one key the later one counts. *)
Theorem probability_keys (m : MetricResult.t) (rest : list MetricResult.t) :
  let samples := Route.samples (MetricResult.result m) in
  let probability := Transformed.probability (Route.transformResults (m :: rest)) in
  NoDup (JsObject.keys probability)
  /\ (forall k,
        In k (JsObject.keys probability)
        <-> exists v,
              In v samples /\ VariantData.key v = k
              /\ VariantData.chance_to_win v <> None)
  /\ (forall k, JsObject.get k probability = Route.last_chance k samples).
Proof.
  intros samples probability.
  assert (probability = fold_left Route.record_chance samples []) as Hp
      by (subst probability samples; cbn [Route.transformResults Transformed.probability];
          apply probability_samples).
  assert (forall k, JsObject.get k probability = Route.last_chance k samples) as Hget.
  { intros k. rewrite Hp, get_fold_record_chance.
    destruct (Route.last_chance k samples); reflexivity. }
  split; [rewrite Hp; apply fold_record_chance_nodup; constructor|].
  split; [|exact Hget].
  intros k. rewrite <- last_chance_some, <- Hget.
  pose proof (get_none_iff_not_key probability k) as Hnone.
  destruct (JsObject.get k probability) as [chance|].
  - split; [discriminate|]. intros _.
    destruct (in_dec string_dec k (JsObject.keys probability)) as [Hin|Hnot]; [exact Hin|].
    apply Hnone in Hnot. discriminate Hnot.
  - split; [|congruence]. intros Hin. exfalso. now apply (proj1 Hnone).
Qed.

(** X17.  The top-level variants and the variants of the first metric's
    entry describe the same samples: the same keys in the same order, the
    count of the one being the exposure of the other, and the top-level
    success count being the entry's, with [0] where the entry has none. *)
Theorem variants_match_first_metric (m : MetricResult.t) (rest : list MetricResult.t) :
  let out := Route.transformResults (m :: rest) in
  exists entry others,
    Transformed.primary_metric_results out = entry :: others
    /\ List.length others = List.length rest
    /\ map AllVariant.key (Transformed.variants out)
       = map MetricVariant.key (PrimaryMetric.variants entry)
    /\ map AllVariant.count (Transformed.variants out)
       = map MetricVariant.exposure (PrimaryMetric.variants entry)
    /\ map AllVariant.success_count (Transformed.variants out)
       = map (fun e => Some (Js.nullish_or (MetricVariant.success_count e) 0))
           (PrimaryMetric.variants entry).
Proof.
  intros out. subst out.
  exists (Route.primary_metric m), (map Route.primary_metric rest).
  cbn [Route.transformResults Transformed.primary_metric_results Transformed.variants map].
  split; [reflexivity|]. split; [apply length_map|].
  rewrite allVariants_samples, primary_metric_samples, !map_map.
  split; [reflexivity|]. split; [reflexivity|].
  apply map_ext. intros v.
  unfold Route.allVariants_entry, Route.metric_entry.
  cbn [AllVariant.success_count MetricVariant.success_count].
  destruct (Route.step_counts_0 v), (VariantData.sum v), (VariantData.success_count v);
    reflexivity.
Qed.

End ProbabilityKeys.

(** ** What the panel shows *)

Section PanelView.

Import ExperimentResults Panel.

Lemma exposures_le_total (variants : list VariantResult.t) (v : VariantResult.t) :
  (forall w, In w variants -> 0 <= exposures w) ->
  In v variants ->
  0 <= exposures v <= totalExposures variants.
Proof.
  intros Hnonneg Hin. unfold totalExposures. rewrite totalExposures_from, Z.add_0_l.
  induction variants as [|w rest IH]; [destruct Hin|].
  cbn [map fold_right].
  assert (0 <= fold_right Z.add 0 (map exposures rest)) as Hrest.
  { clear - Hnonneg. induction rest as [|x xs IHx]; cbn [map fold_right]; [lia|].
    assert (0 <= exposures x) by (apply Hnonneg; right; now left).
    assert (0 <= fold_right Z.add 0 (map exposures xs)).
    { apply IHx. intros y [<- | Hy]; apply Hnonneg; [now left | right; now right]. }
    lia. }
  destruct Hin as [<- | Hin].
  - assert (0 <= exposures w) by (apply Hnonneg; now left). lia.
  - assert (0 <= exposures w) by (apply Hnonneg; now left).
    assert (0 <= exposures v <= fold_right Z.add 0 (map exposures rest)).
    { apply IH; [|exact Hin]. intros y Hy. apply Hnonneg. now right. }
    lia.
Qed.

(** X19.  When no variant has a negative exposure count, the percentage of
    each variant of the panel lies between 0 and 100. *)
Theorem exposurePercent_within_bounds (variants : list VariantResult.t)
    (v : VariantResult.t) :
  (forall w, In w variants -> 0 <= exposures w) ->
  In v variants ->
  (0 <= exposurePercent (totalExposures variants) v
   /\ exposurePercent (totalExposures variants) v <= 100)%Q.
Proof.
  intros Hnonneg Hin.
  pose proof (exposures_le_total variants v Hnonneg Hin) as [H0 Hle].
  unfold exposurePercent.
  destruct (0 <? totalExposures variants) eqn:E.
  - apply Z.ltb_lt in E.
    destruct (totalExposures variants) as [|p|p]; try lia.
    unfold Qle, Qmult, Qdiv, Qinv, inject_Z. simpl.
    split; nia.
  - split; [apply Qle_refl | discriminate].
Qed.

Lemma exposurePercent_within_bounds_witness :
  let control :=
    {| VariantResult.key := "control"; VariantResult.count := 3;
       VariantResult.absolute_exposure := 3; VariantResult.failure_count := None;
       VariantResult.success_count := None |} in
  (forall w, In w [control] -> 0 <= exposures w)
  /\ In control [control]
  /\ (exposurePercent (totalExposures [control]) control <= 100)%Q.
Proof.
  intros control.
  assert (forall w, In w [control] -> 0 <= exposures w) as H1.
  { intros w [<- | []]. discriminate. }
  assert (In control [control]) as H2 by (now left).
  split; [exact H1|]. split; [exact H2|].
  exact (proj2 (exposurePercent_within_bounds [control] control H1 H2)).
Defined.

Lemma get_of_nodup {V : Type} (o : JsObject.t V) (k : string) (v : V) :
  NoDup (JsObject.keys o) -> In (k, v) o -> JsObject.get k o = Some v.
Proof.
  unfold JsObject.keys.
  induction o as [|[k' v'] rest IH]; simpl; intros Hnd Hin; [destruct Hin|].
  inversion Hnd as [|? ? Hnotin Hnd']; subst.
  destruct Hin as [Heq | Hin].
  - injection Heq as -> ->. now rewrite String.eqb_refl.
  - destruct (String.eqb k' k) eqn:E.
    + apply String.eqb_eq in E. subst k'. exfalso. apply Hnotin.
      change k with (fst (k, v)). now apply in_map.
    + auto.
Qed.

(** X20.  A variant with a non-empty key is marked as the winner only when
    the results are significant, and then the probability shown for it is
    above 0 and no entry of the mapping has a higher one. *)
Theorem isWinning_is_the_maximum (results : ExperimentResultsData.t)
    (variant : VariantResult.t) :
  NoDup (JsObject.keys (probability results)) ->
  VariantResult.key variant <> "" ->
  isWinning results variant = true ->
  ExperimentResultsData.significant results = Some true
  /\ (0 < variantProb results variant)%Q
  /\ (forall k p, In (k, p) (JsObject.entries (probability results)) ->
                  (p <= variantProb results variant)%Q).
Proof.
  intros Hnd Hkey Hwin. unfold isWinning in Hwin.
  apply andb_true_iff in Hwin. destruct Hwin as [Hk Hs].
  apply String.eqb_eq in Hk.
  split.
  { destruct (ExperimentResultsData.significant results) as [[|]|];
      [reflexivity | discriminate Hs | discriminate Hs]. }
  pose proof (fold_better (JsObject.entries (probability results))
                {| WinningVariant.key := ""; WinningVariant.prob := 0 |}) as H.
  cbn zeta in H. fold (winningVariant (probability results)) in H.
  cbn [WinningVariant.prob] in H.
  destruct H as [(Hsame & _) | (before & after & Hsplit & Hlt & Hbefore & Hafter)].
  { rewrite Hsame in Hk. cbn in Hk. contradiction. }
  set (winner := winningVariant (probability results)) in *.
  assert (JsObject.get (VariantResult.key variant) (probability results)
          = Some (WinningVariant.prob winner)) as Hget.
  { apply get_of_nodup; [exact Hnd|]. rewrite Hk.
    unfold JsObject.entries in Hsplit. rewrite Hsplit.
    apply in_or_app. right. now left. }
  assert (variantProb results variant = WinningVariant.prob winner) as ->.
  { unfold variantProb. rewrite Hget.
    destruct (Qeq_bool (WinningVariant.prob winner) 0) eqn:E; [|reflexivity].
    apply Qeq_bool_iff in E. rewrite E in Hlt. now apply Qlt_irrefl in Hlt. }
  split; [exact Hlt|].
  intros k p Hin. rewrite Hsplit in Hin.
  apply in_app_or in Hin. destruct Hin as [Hin | [Heq | Hin]].
  - apply Qlt_le_weak. eauto.
  - injection Heq as _ <-. apply Qle_refl.
  - eauto.
Qed.

Lemma isWinning_is_the_maximum_witness :
  let results :=
    {| ExperimentResultsData.probability := Some [("control", 1 # 4); ("variant_a", 3 # 4)];
       ExperimentResultsData.significant := Some true;
       ExperimentResultsData.variants := None;
       ExperimentResultsData.primary_metric_results := None |} in
  let variant :=
    {| VariantResult.key := "variant_a"; VariantResult.count := 10;
       VariantResult.absolute_exposure := 10; VariantResult.failure_count := None;
       VariantResult.success_count := None |} in
  NoDup (JsObject.keys (probability results))
  /\ VariantResult.key variant <> ""
  /\ isWinning results variant = true
  /\ (0 < variantProb results variant)%Q.
Proof.
  intros results variant.
  assert (NoDup (JsObject.keys (probability results))) as H1.
  { cbn. constructor; [intros [H | []]; discriminate H|].
    constructor; [intros [] | constructor]. }
  assert (VariantResult.key variant <> "") as H2 by discriminate.
  assert (isWinning results variant = true) as H3 by reflexivity.
  split; [exact H1|]. split; [exact H2|]. split; [exact H3|].
  exact (proj1 (proj2 (isWinning_is_the_maximum results variant H1 H2 H3))).
Defined.

Lemma filter_key_at_most_one (variants : list VariantResult.t) (k : string) (b : bool) :
  NoDup (map VariantResult.key variants) ->
  (List.length
     (filter (fun v => (String.eqb (VariantResult.key v) k && b)%bool) variants) <= 1)%nat.
Proof.
  induction variants as [|v rest IH]; simpl; intros Hnd; [lia|].
  inversion Hnd as [|? ? Hnotin Hnd']; subst.
  destruct (String.eqb (VariantResult.key v) k) eqn:E; cbn [andb]; [|now apply IH].
  destruct b; [|now apply IH].
  apply String.eqb_eq in E. simpl.
  assert (filter (fun w => (String.eqb (VariantResult.key w) k && true)%bool) rest = [])
    as ->; [|simpl; lia].
  clear - Hnotin E. induction rest as [|w ws IHw]; simpl; [reflexivity|].
  destruct (String.eqb (VariantResult.key w) k) eqn:Ew; cbn [andb].
  - apply String.eqb_eq in Ew. exfalso. apply Hnotin. left. congruence.
  - apply IHw. intros Hin. apply Hnotin. now right.
Qed.

(** X21.  When the variants of the panel have distinct keys, at most one of
    them is marked as the winner; and none is unless the results are
    significant. *)
Theorem at_most_one_winner (results : ExperimentResultsData.t) :
  NoDup (map VariantResult.key (variants results)) ->
  (List.length (filter (isWinning results) (variants results)) <= 1)%nat
  /\ (ExperimentResultsData.significant results <> Some true ->
      filter (isWinning results) (variants results) = []).
Proof.
  intros Hnd. split.
  - apply (filter_key_at_most_one (variants results)
             (WinningVariant.key (winningVariant (probability results)))
             (Js.nullish_or (ExperimentResultsData.significant results) false) Hnd).
  - intros Hs.
    assert (Js.nullish_or (ExperimentResultsData.significant results) false = false) as Hf.
    { destruct (ExperimentResultsData.significant results) as [[|]|];
        [congruence | reflexivity | reflexivity]. }
    unfold isWinning. rewrite Hf.
    induction (variants results) as [|v rest IH]; simpl; [reflexivity|].
    rewrite andb_false_r. inversion Hnd; subst. auto.
Qed.

Lemma at_most_one_winner_witness :
  let results :=
    {| ExperimentResultsData.probability := Some [("control", 1 # 4); ("variant_a", 3 # 4)];
       ExperimentResultsData.significant := Some true;
       ExperimentResultsData.variants :=
         Some [ {| VariantResult.key := "control"; VariantResult.count := 10;
                   VariantResult.absolute_exposure := 10;
                   VariantResult.failure_count := None;
                   VariantResult.success_count := None |};
                {| VariantResult.key := "variant_a"; VariantResult.count := 10;
                   VariantResult.absolute_exposure := 10;
                   VariantResult.failure_count := None;
                   VariantResult.success_count := None |} ];
       ExperimentResultsData.primary_metric_results := None |} in
  NoDup (map VariantResult.key (variants results))
  /\ (List.length (filter (isWinning results) (variants results)) <= 1)%nat.
Proof.
  intros results.
  assert (NoDup (map VariantResult.key (variants results))) as H1.
  { cbn. constructor; [intros [H | []]; discriminate H|].
    constructor; [intros [] | constructor]. }
  split; [exact H1 | exact (proj1 (at_most_one_winner results H1))].
Defined.

End PanelView.

(** ** The panel's views *)

Section Rendering.

Import ExperimentResults Panel.

(** X22.  The panel shows its waiting message exactly when it is not
    loading, has no error message, has results, and these list no variant
    and no metric; it then shows none of the total, the variants and the
    metrics blocks; and it shows the total only together with the
    variants. *)
Theorem waiting_block_iff (results : option ExperimentResultsData.t) (loading : bool)
    (error : option string) :
  (shows waitingBlock (render results loading error) = true
   <-> loading = false
       /\ Js.truthy_str error = false
       /\ exists r, results = Some r /\ variants r = [] /\ primaryMetrics r = [])
  /\ (shows waitingBlock (render results loading error) = true ->
      shows totalBlock (render results loading error) = false
      /\ shows variantsBlock (render results loading error) = false
      /\ shows metricsBlock (render results loading error) = false)
  /\ (shows totalBlock (render results loading error) = true ->
      shows variantsBlock (render results loading error) = true).
Proof.
  unfold render.
  destruct loading; cbn [shows].
  { split; [split; [discriminate | intros [H _]; discriminate H]|].
    split; discriminate. }
  destruct (Js.truthy_str error); cbn [shows].
  { split; [split; [discriminate | intros (_ & H & _); discriminate H]|].
    split; discriminate. }
  destruct results as [r|]; cbn [shows].
  2:{ split; [split; [discriminate | intros (_ & _ & r & H & _); discriminate H]|].
      split; discriminate. }
  unfold blocks. cbn [waitingBlock totalBlock variantsBlock metricsBlock].
  destruct (variants r) as [|v vs] eqn:Ev.
  - cbn [List.length Nat.eqb andb totalExposures fold_left].
    destruct (primaryMetrics r) as [|m ms] eqn:Em; cbn.
    + split; [|split; [auto | discriminate]].
      split; [|reflexivity].
      intros _. split; [reflexivity|]. split; [reflexivity|].
      exists r. now rewrite Ev, Em.
    + split; [|split; discriminate].
      split; [discriminate|].
      intros (_ & _ & r' & Hr & _ & Hm). injection Hr as <-.
      rewrite Em in Hm. discriminate Hm.
  - cbn [List.length Nat.eqb andb Nat.ltb Nat.leb].
    split; [|split; [discriminate | reflexivity]].
    split; [discriminate|].
    intros (_ & _ & r' & Hr & Hv & _). injection Hr as <-.
    rewrite Ev in Hv. discriminate Hv.
Qed.

End Rendering.
